(** * Edubull task tracker (jira.py): access control, mentions, notifications

    A shallow embedding of the parts of [jira.py] that decide who may see
    a department, what a comment fans out to, how a task moves through the
    status catalog and how credentials are stored and checked.

    The program talks to a MySQL server through [execute_query], which
    opens a new connection for every statement.  The embedding keeps
    - the tables as lists of records (a table is a bag of rows, and
      [ORDER BY] / [LIMIT] make the order observable),
    - the server session of a connection (its [LAST_INSERT_ID()]),
    - a fault plan saying which calls of [execute_query] fail to connect,
    - a log of the statements that reached the server.

    Text is a list of Unicode code points.  SQL [=] on text is modelled as
    equality of code points.  Of the declared constraints the embedding
    keeps the [UNIQUE] on [users.username], the two [FOREIGN KEY]s of
    [comments], and the width of [users.password_hash] where the program
    writes a value that cannot fit it (the salted hash of the
    change-password form); the other widths are not modelled, a value is
    stored as given. *)

From Stdlib Require Import ZArith NArith Ascii.
From stdpp Require Import base option list sorting gmap strings pretty.

Open Scope Z_scope.

(** ** Text *)

Definition text := list N.

Definition codes (s : string) : text :=
  (λ c, N_of_ascii c) <$> String.list_ascii_of_string s.

Definition at_sign : N := 64%N.
Definition dollar : N := 36%N.

(** Python truthiness of a [str]: the empty string is falsy. *)
Definition nonempty (t : text) : bool :=
  match t with [] => false | _ => true end.

(** What the program takes from its libraries and from the server:
    the character class [\w] of [re] on [str] patterns,
    [hashlib.sha256(s.encode()).hexdigest()], the order the server uses
    for [ORDER BY] on a text column, and whether the server runs in strict
    mode, in which it refuses a value longer than its column where it
    would cut the value short otherwise. *)
Class Platform := {
  re_word : N → bool;
  sha256_hexdigest : text → text;
  collation_le : text → text → bool;
  strict_sql_mode : bool
}.

(** ** Tables *)

Record user := User {
  u_id : Z;
  u_username : text;
  u_full_name : text;
  u_email : text;
  u_department : text;
  u_password_hash : option text;
  u_role : text;
  u_created_at : Z
}.

Record department := Department {
  d_id : Z;
  d_name : text;
  d_description : option text
}.

Record status := Status {
  s_id : Z;
  s_name : text;
  s_display_order : Z
}.

Record task := Task {
  t_id : Z;
  t_title : text;
  t_description : option text;
  t_assignee_id : option Z;
  t_reporter_id : Z;
  t_status_id : Z;
  t_priority : text;
  t_deadline : option Z;
  t_department_id : Z
}.

Record comment := Comment {
  c_id : Z;
  c_task_id : Z;
  c_user_id : Z;
  c_comment : text;
  c_created_at : Z
}.

Record permission := Permission {
  p_id : Z;
  p_user_id : Z;
  p_department_id : Z;
  p_can_view : bool;
  p_can_edit : bool
}.

Record notification := Notification {
  n_id : Z;
  n_user_id : Z;
  n_content : text;
  n_link : option text;
  n_is_read : bool;
  n_created_at : Z
}.

Record mention := Mention {
  m_comment_id : Z;
  m_user_id : Z;
  m_is_read : bool
}.

Record store := Store {
  users : list user;
  departments : list department;
  statuses : list status;
  tasks : list task;
  comments : list comment;
  permissions : list permission;
  notifications : list notification;
  mentions : list mention;
  clock : Z
}.

(** [AUTO_INCREMENT]: one more than the largest id in use. *)
Definition next_id (ids : list Z) : Z := 1 + foldr Z.max 0 ids.

(** ** Connections and statements *)

(** The part of a server session the program reads. *)
Record connection := Connection { last_insert_id : Z }.

Inductive sql :=
  | Select (from : string)
  | Insert (into : string)
  | Update (table : string).

(** A statement names what it is and says what the server does with it on
    a given session; [None] is an [Error] raised by the server. *)
Record statement (A : Type) := Statement {
  kind : sql;
  run : store → connection → option (A * store * connection)
}.
Arguments Statement {A} _ _.
Arguments kind {A} _.
Arguments run {A} _ _ _.

(** A query only reads. *)
Definition query {A} (from : string) (f : store → connection → A) : statement A :=
  Statement (Select from) (λ s c, Some (f s c, s, c)).

(** ** The world and the monad of the program *)

Record world := World {
  db : store;
  plan : list bool;     (* per coming call of [execute_query]: does it go through? *)
  log : list sql        (* statements sent to the server, oldest first *)
}.

Definition M (A : Type) : Type := world → A * world.

Definition ret {A} (a : A) : M A := λ w, (a, w).
Definition bind {A B} (m : M A) (k : A → M B) : M B :=
  λ w, let '(a, w') := m w in k a w'.

Notation "x <- m ;; k" := (bind m (λ x, k))
  (at level 100, m at next level, right associativity).
Notation "m ;;; k" := (bind m (λ _, k))
  (at level 100, right associativity).

(** [create_connection]: every call connects anew, so the session starts
    with no insert of its own and [LAST_INSERT_ID()] is 0. *)
Definition create_connection : connection := Connection 0.

(** [execute_query]: connect, run the statement, commit or fetch, close.
    A call the plan marks [false] does not reach the server (the
    connection fails); a statement the server refuses raises [Error].  In
    both cases the function reports the error and returns [None] with the
    store as it was.  The connection is closed in every case, so what the
    statement left in its session is gone. *)
Definition execute_query {A} (q : statement A) : M (option A) := λ w,
  match plan w with
  | false :: rest => (None, World (db w) rest (log w))
  | _ =>
    match run q (db w) create_connection with
    | Some (a, s', _) => (Some a, World s' (tail (plan w)) (log w ++ [kind q]))
    | None => (None, World (db w) (tail (plan w)) (log w ++ [kind q]))
    end
  end.

(** Python truthiness of what [execute_query] returned for a fetch. *)
Definition has_rows {A} (r : option (list A)) : bool :=
  match r with Some (_ :: _) => true | _ => false end.

(** Python truthiness of what [execute_query] returned for a statement
    that is committed: [True], or [None] after an error. *)
Definition succeeded (r : option unit) : bool :=
  match r with Some _ => true | None => false end.

(** [r or []] *)
Definition or_empty {A} (r : option (list A)) : list A := default [] r.

(** ** Rows as dictionaries *)

(** The rows [cursor(dictionary=True)] returns are dictionaries from
    column names to values.  Where the program reads only columns its
    query selected, a record stands for the row; the rows of the
    by-status listing are kept as dictionaries, because the program asks
    them for a key with [get]. *)
Inductive value :=
  | VNull
  | VInt (z : Z)
  | VText (t : text).

#[export] Instance value_eq_dec : EqDecision value.
Proof. solve_decision. Defined.

Abbreviation row := (gmap string value).

Section Program.
Context `{Platform}.

(** ** Permission engine *)

(** [check_department_access] *)
Definition check_department_access (user_id department_id : Z) : M bool :=
  result <- execute_query (query "user_department_permissions" (λ s _,
    p_can_view <$>
      filter (λ p, p_user_id p = user_id ∧ p_department_id p = department_id
                   ∧ p_can_view p = true) (permissions s))) ;;
  ret (has_rows result).

(** A row of [get_user_accessible_departments]. *)
Record accessible_department := AccessibleDepartment {
  ad_id : Z;
  ad_name : text;
  ad_description : option text;
  ad_can_edit : bool
}.

(** [get_user_accessible_departments] *)
Definition get_user_accessible_departments (user_id : Z) : M (list accessible_department) :=
  result <- execute_query (query "departments" (λ s _,
    merge_sort (λ a b, collation_le (ad_name a) (ad_name b))
      (d ← departments s;
       udp ← filter (λ udp, d_id d = p_department_id udp ∧ p_user_id udp = user_id
                            ∧ p_can_view udp = true) (permissions s);
       [AccessibleDepartment (d_id d) (d_name d) (d_description d) (p_can_edit udp)]))) ;;
  ret (or_empty result).

(** A row of [get_user_department_permissions]. *)
Record department_permission := DepartmentPermission {
  dp_id : Z;
  dp_department_id : Z;
  dp_department_name : text;
  dp_can_view : bool;
  dp_can_edit : bool
}.

(** [get_user_department_permissions] *)
Definition get_user_department_permissions (user_id : Z) : M (list department_permission) :=
  result <- execute_query (query "user_department_permissions" (λ s _,
    udp ← filter (λ udp, p_user_id udp = user_id) (permissions s);
    d ← filter (λ d, p_department_id udp = d_id d) (departments s);
    [DepartmentPermission (p_id udp) (p_department_id udp) (d_name d)
       (p_can_view udp) (p_can_edit udp)])) ;;
  ret (or_empty result).

(** [admin_panel_page], the flags a department's two checkboxes start
    from: [perm = next((p for p in current_permissions if
    p['department_id'] == dept['id']), None)], then
    [perm['can_view'] if perm else False] and the same for [can_edit]. *)
Definition current_flags (current_permissions : list department_permission)
    (dept_id : Z) : bool * bool :=
  match list_find (λ p, dp_department_id p = dept_id) current_permissions with
  | Some (_, perm) => (dp_can_view perm, dp_can_edit perm)
  | None => (false, false)
  end.

(** ** Notification inbox *)

(** [add_notification] *)
Definition add_notification (user_id : Z) (content : text) (link : option text)
    : M (option unit) :=
  execute_query (Statement (Insert "notifications") (λ s c,
    let id := next_id (n_id <$> notifications s) in
    Some (tt,
          Store (users s) (departments s) (statuses s) (tasks s) (comments s)
            (permissions s)
            (notifications s ++ [Notification id user_id content link false (clock s)])
            (mentions s) (clock s),
          Connection id))).

(** A row of [get_user_notifications]. *)
Record notification_row := NotificationRow {
  nr_id : Z;
  nr_content : text;
  nr_link : option text;
  nr_is_read : bool;
  nr_created_at : Z
}.

Definition notification_row_of (n : notification) : notification_row :=
  NotificationRow (n_id n) (n_content n) (n_link n) (n_is_read n) (n_created_at n).

(** [ORDER BY created_at DESC] *)
Definition newest_first (a b : notification) : Prop := n_created_at b ≤ n_created_at a.

#[export] Instance newest_first_dec a b : Decision (newest_first a b).
Proof. unfold newest_first. apply _. Defined.

(** [WHERE user_id = %s ORDER BY created_at DESC LIMIT 50] *)
Definition inbox (user_id : Z) (s : store) : list notification :=
  take 50 (merge_sort newest_first
             (filter (λ n, n_user_id n = user_id) (notifications s))).

(** [get_user_notifications] *)
Definition get_user_notifications (user_id : Z) : M (list notification_row) :=
  result <- execute_query (query "notifications" (λ s _,
    notification_row_of <$> inbox user_id s)) ;;
  ret (or_empty result).

(** [get_unread_notification_count] *)
Definition get_unread_notification_count (user_id : Z) : M Z :=
  result <- execute_query (query "notifications" (λ s _,
    [Z.of_nat (length (filter (λ n, n_user_id n = user_id ∧ n_is_read n = false)
                         (notifications s)))])) ;;
  ret (match result with Some (count :: _) => count | _ => 0 end).

Definition set_read (n : notification) : notification :=
  Notification (n_id n) (n_user_id n) (n_content n) (n_link n) true (n_created_at n).

Definition update_notifications (f : notification → notification) (s : store) : store :=
  Store (users s) (departments s) (statuses s) (tasks s) (comments s)
    (permissions s) (f <$> notifications s) (mentions s) (clock s).

(** [mark_notification_read] *)
Definition mark_notification_read (notification_id : Z) : M (option unit) :=
  execute_query (Statement (Update "notifications") (λ s c,
    Some (tt,
          update_notifications
            (λ n, if decide (n_id n = notification_id) then set_read n else n) s,
          c))).

(** [mark_all_notifications_read] *)
Definition mark_all_notifications_read (user_id : Z) : M (option unit) :=
  execute_query (Statement (Update "notifications") (λ s c,
    Some (tt,
          update_notifications
            (λ n, if decide (n_user_id n = user_id) then set_read n else n) s,
          c))).

(** ** Credential store *)

(** [hash_password] *)
Definition hash_password (password : text) : text := sha256_hexdigest password.

(** What is known of [hexdigest] for SHA-256: it returns 64 digits. *)
Definition hexdigest_64 : Prop := ∀ t, length (sha256_hexdigest t) = 64%nat.



Definition with_users (us : list user) (s : store) : store :=
  Store us (departments s) (statuses s) (tasks s) (comments s)
    (permissions s) (notifications s) (mentions s) (clock s).

(** [INSERT INTO users (username, full_name, email, department,
    password_hash[, role])]; the column [username] is [UNIQUE], a second
    row with a name in use is refused. *)
Definition insert_user (username full_name email department password_hash role : text)
    : statement unit :=
  Statement (Insert "users") (λ s c,
    if decide (username ∈ u_username <$> users s) then None
    else
      let id := next_id (u_id <$> users s) in
      Some (tt,
            with_users (users s ++ [User id username full_name email department
                                      (Some password_hash) role (clock s)]) s,
            Connection id)).

(** [SELECT id FROM users WHERE username = %s] *)
Definition select_user_id (username : text) : statement (list Z) :=
  query "users" (λ s _, u_id <$> filter (λ u, u_username u = username) (users s)).

Definition default_role : text := codes "user".

Inductive register_result :=
  | AllFieldsRequired
  | PasswordsDoNotMatch
  | UsernameAlreadyExists
  | AccountCreated
  | NotCreated.          (* the insert failed; only [execute_query] reported it *)

(** [login_page], the registration form once submitted. *)
Definition login_page_register
    (new_username new_full_name new_email new_department new_password confirm_password : text)
    : M register_result :=
  if nonempty new_username && nonempty new_full_name && nonempty new_email
     && nonempty new_password && nonempty confirm_password then
    if decide (new_password = confirm_password) then
      existing_user <- execute_query (select_user_id new_username) ;;
      if has_rows existing_user then ret UsernameAlreadyExists
      else
        let hashed_pwd := hash_password new_password in
        success <- execute_query
          (insert_user new_username new_full_name new_email new_department
             hashed_pwd default_role) ;;
        ret (if succeeded success then AccountCreated else NotCreated)
    else ret PasswordsDoNotMatch
  else ret AllFieldsRequired.

(** [admin_panel_page], the add-user form once submitted. *)
Definition admin_panel_page_add_user
    (new_username new_full_name new_email new_department new_role
     new_password confirm_password : text) : M register_result :=
  if nonempty new_username && nonempty new_full_name && nonempty new_email
     && nonempty new_password && nonempty confirm_password then
    if decide (new_password = confirm_password) then
      existing_user <- execute_query (select_user_id new_username) ;;
      if has_rows existing_user then ret UsernameAlreadyExists
      else
        let hashed_pwd := hash_password new_password in
        success <- execute_query
          (insert_user new_username new_full_name new_email new_department
             hashed_pwd new_role) ;;
        ret (if succeeded success then AccountCreated else NotCreated)
    else ret PasswordsDoNotMatch
  else ret AllFieldsRequired.

(** [add_team_member]; [random_password] is what [random.choices] drew. *)
Definition add_team_member (random_password : text)
    (username full_name email department : text) : M (option text) :=
  let hashed_pwd := hash_password random_password in
  success <- execute_query
    (insert_user username full_name email department hashed_pwd default_role) ;;
  ret (if succeeded success then Some random_password else None).

Inductive add_member_result :=
  | MemberAdded (initial_password : text)
  | MemberFieldsRequired
  | MemberNotAdded.      (* no message of the form; [execute_query] reported the error *)

(** [team_members_page], the add-team-member form once submitted. *)
Definition team_members_page_add_member (random_password : text)
    (username full_name email department : text) : M add_member_result :=
  if nonempty username && nonempty full_name && nonempty email then
    initial_password <- add_team_member random_password username full_name email department ;;
    ret (match initial_password with
         | Some p => if nonempty p then MemberAdded p else MemberNotAdded
         | None => MemberNotAdded
         end)
  else ret MemberFieldsRequired.

Inductive bulk_row_result :=
  | BulkUsernameExists
  | BulkUserCreated (password : text)
  | BulkFailedToCreate.

(** [team_members_page], the body of the bulk-upload loop for one row. *)
Definition team_members_page_bulk_row (random_password : text)
    (username full_name email department : text) : M bulk_row_result :=
  existing_user <- execute_query (select_user_id username) ;;
  if has_rows existing_user then ret BulkUsernameExists
  else
    initial_password <- add_team_member random_password username full_name email department ;;
    ret (match initial_password with
         | Some p => if nonempty p then BulkUserCreated p else BulkFailedToCreate
         | None => BulkFailedToCreate
         end).

(** [current_hash.split('$')[0]] *)
Fixpoint before_dollar (t : text) : text :=
  match t with
  | [] => []
  | c :: t' => if decide (c = dollar) then [] else c :: before_dollar t'
  end.

(** [salt + '$' + hashlib.sha256((salt + password).encode()).hexdigest()] *)
Definition salted_hash (salt password : text) : text :=
  salt ++ [dollar] ++ sha256_hexdigest (salt ++ password).

Inductive change_password_result :=
  | ChangeAllFieldsRequired
  | ChangeConfirmationMismatch
  | ChangeTooShort
  | ChangeCurrentIncorrect
  | PasswordChanged
  | ChangeUpdateFailed
  | ChangeVerifyFailed.

Definition set_password_hash (h : text) (u : user) : user :=
  User (u_id u) (u_username u) (u_full_name u) (u_email u) (u_department u)
    (Some h) (u_role u) (u_created_at u).

(** What the server makes of a value for [password_hash VARCHAR(64)]: a
    value that fits is stored as it is; a longer one is refused in strict
    mode and cut to 64 characters otherwise. *)
Definition password_hash_column (h : text) : option text :=
  if decide (length h ≤ 64)%nat then Some h
  else if strict_sql_mode then None else Some (take 64 h).

(** [user_profile_page], the change-password form once submitted, for the
    user [user_id] the page loaded; [salt] is the new salt [random.choice]
    drew. *)
Definition user_profile_page_change_password (user_id : Z) (salt : text)
    (current_password new_password confirm_password : text) : M change_password_result :=
  if negb (nonempty current_password) || negb (nonempty new_password)
     || negb (nonempty confirm_password) then ret ChangeAllFieldsRequired
  else if decide (new_password ≠ confirm_password) then ret ChangeConfirmationMismatch
  else if decide (length new_password < 8)%nat then ret ChangeTooShort
  else
    result <- execute_query (query "users" (λ s _,
      u_password_hash <$> filter (λ u, u_id u = user_id) (users s))) ;;
    match result with
    | Some (Some current_hash :: _) =>
      if nonempty current_hash then
        let salt0 := before_dollar current_hash in
        let input_hash := salted_hash salt0 current_password in
        if decide (input_hash ≠ current_hash) then ret ChangeCurrentIncorrect
        else
          let new_hash := salted_hash salt new_password in
          success <- execute_query (Statement (Update "users") (λ s c,
            match password_hash_column new_hash with
            | Some stored =>
              Some (tt,
                    with_users ((λ u, if decide (u_id u = user_id)
                                      then set_password_hash stored u else u)
                                  <$> users s) s,
                    c)
            | None => None
            end)) ;;
          ret (if succeeded success then PasswordChanged else ChangeUpdateFailed)
      else ret ChangeVerifyFailed
    | _ => ret ChangeVerifyFailed
    end.

(** ** Comments and mentions *)

(** A row of [get_all_users]. *)
Record user_info := UserInfo {
  ui_id : Z;
  ui_username : text;
  ui_full_name : text;
  ui_email : text;
  ui_department : text;
  ui_created_at : Z
}.

Definition user_info_of (u : user) : user_info :=
  UserInfo (u_id u) (u_username u) (u_full_name u) (u_email u) (u_department u)
    (u_created_at u).

(** [get_all_users]; the result is not guarded by [or []]. *)
Definition get_all_users : M (option (list user_info)) :=
  execute_query (query "users" (λ s _,
    merge_sort (λ a b, collation_le (ui_full_name a) (ui_full_name b))
      (user_info_of <$> users s))).

(** The longest run of [\w] characters at the head of a text. *)
Fixpoint word_prefix (s : text) : text :=
  match s with
  | c :: s' => if re_word c then c :: word_prefix s' else []
  | [] => []
  end.

(** [re.findall(r'@(\w+)', text)]: matches are sought from left to right
    and do not overlap; after a match the scan resumes behind it ([skip]
    counts the characters of the current match still to be passed). *)
Fixpoint findall_from (skip : nat) (s : text) : list text :=
  match s with
  | [] => []
  | c :: s' =>
    match skip with
    | S k => findall_from k s'
    | O =>
      if decide (c = at_sign) then
        match word_prefix s' with
        | [] => findall_from 0 s'
        | name => name :: findall_from (length name) s'
        end
      else findall_from 0 s'
    end
  end.

Definition findall (s : text) : list text := findall_from 0 s.

(** [{user['username']: user['id'] for user in all_users}]: a later user
    with the same name replaces an earlier one. *)
Definition username_map_of (all_users : list user_info) : gmap text Z :=
  foldl (λ m user, <[ui_username user := ui_id user]> m) ∅ all_users.

(** [extract_mentions]; [None] is the [TypeError] of iterating over the
    [None] that [get_all_users] returns after an error. *)
Definition extract_mentions (t : text) : M (option (list Z)) :=
  all_users <- get_all_users ;;
  match all_users with
  | None => ret None
  | Some all_users =>
    let username_map := username_map_of all_users in
    let mentioned_usernames := findall t in
    ret (Some (omap (λ username, username_map !! username) mentioned_usernames))
  end.

Definition with_comments (cs : list comment) (s : store) : store :=
  Store (users s) (departments s) (statuses s) (tasks s) cs
    (permissions s) (notifications s) (mentions s) (clock s).

(** [add_comment]: the insert and the question for its id are two calls
    of [execute_query], so two connections.  The table has
    [FOREIGN KEY (task_id) REFERENCES tasks(id)] and
    [FOREIGN KEY (user_id) REFERENCES users(id)]: the server refuses a
    comment on what is no task or by what is no user. *)
Definition add_comment (task_id user_id : Z) (comment : text) : M (option Z) :=
  execute_query (Statement (Insert "comments") (λ s c,
    if decide (task_id ∈ t_id <$> tasks s ∧ user_id ∈ u_id <$> users s) then
      let id := next_id (c_id <$> comments s) in
      Some (tt,
            with_comments (comments s ++ [Comment id task_id user_id comment (clock s)]) s,
            Connection id)
    else None)) ;;;
  result <- execute_query (query "LAST_INSERT_ID()" (λ _ c, [last_insert_id c])) ;;
  ret (match result with Some (id :: _) => Some id | _ => None end).

(** [add_mention] *)
Definition add_mention (comment_id user_id : Z) : M (option unit) :=
  execute_query (Statement (Insert "user_mentions") (λ s c,
    Some (tt,
          Store (users s) (departments s) (statuses s) (tasks s) (comments s)
            (permissions s) (notifications s)
            (mentions s ++ [Mention comment_id user_id false]) (clock s),
          c))).

Record session := Session {
  session_user_id : Z;
  session_full_name : text
}.

(** [f"/task/{task['id']}"] *)
Definition task_link (task_id : text) : text := codes "/task/" ++ task_id.

Definition decimal (z : Z) : text := codes (pretty z).

(** [show_department_tasks], the loop over [mentioned_users]. *)
Fixpoint process_mentions (ss : session) (task_id : Z) (task_title : text)
    (comment_id : Z) (mentioned_users : list Z) : M unit :=
  match mentioned_users with
  | [] => ret tt
  | user_id :: rest =>
    add_mention comment_id user_id ;;;
    let notification_content :=
      session_full_name ss ++ codes " mentioned you in a comment on task '"
        ++ task_title ++ codes "'" in
    add_notification user_id notification_content (Some (task_link (decimal task_id))) ;;;
    process_mentions ss task_id task_title comment_id rest
  end.

Inductive comment_result :=
  | NothingSubmitted
  | CommentRaised        (* [extract_mentions] raised, nothing was written *)
  | CommentAdded.

(** Python truthiness of [comment_id]: [None] and [0] are falsy. *)
Definition truthy_id (id : option Z) : bool :=
  match id with Some z => negb (z =? 0) | None => false end.

(** [show_department_tasks], the comment form of a task once submitted. *)
Definition show_department_tasks_add_comment (ss : session) (task_id : Z)
    (task_title comment_text : text) : M comment_result :=
  if nonempty comment_text then
    mentioned_users <- extract_mentions comment_text ;;
    match mentioned_users with
    | None => ret CommentRaised
    | Some mentioned_users =>
      comment_id <- add_comment task_id (session_user_id ss) comment_text ;;
      (if truthy_id comment_id && bool_decide (mentioned_users ≠ []) then
         process_mentions ss task_id task_title (default 0 comment_id) mentioned_users
       else ret tt) ;;;
      ret CommentAdded
    end
  else ret NothingSubmitted.

(** ** Task status transition *)

(** Python truthiness. *)
Definition truthy (v : value) : bool :=
  match v with
  | VNull => false
  | VInt z => negb (z =? 0)
  | VText t => nonempty t
  end.

(** [d[k]] for a column the query selected, and [d.get(k)]. *)
Definition item (d : row) (k : string) : value := default VNull (d !! k).
Definition get (d : row) (k : string) : value := default VNull (d !! k).

(** [str(v)] inside an f-string. *)
Definition str (v : value) : text :=
  match v with
  | VNull => codes "None"
  | VInt z => decimal z
  | VText t => t
  end.

Definition as_int (v : value) : Z :=
  match v with VInt z => z | _ => 0 end.

Definition nullable {A} (f : A → value) (o : option A) : value :=
  match o with Some a => f a | None => VNull end.

(** [ORDER BY t.deadline]: ascending, [NULL] first. *)
Definition deadline_le (a b : task) : Prop :=
  match t_deadline a, t_deadline b with
  | None, _ => True
  | Some _, None => False
  | Some x, Some y => x ≤ y
  end.

#[export] Instance deadline_le_dec a b : Decision (deadline_le a b).
Proof. unfold deadline_le. destruct (t_deadline a), (t_deadline b); apply _. Defined.

(** [LEFT JOIN]: a row without a partner is kept, with [NULL]s. *)
Definition left_join {A} (partners : list A) : list (option A) :=
  match partners with [] => [None] | _ => Some <$> partners end.

(** The listing query of [show_department_tasks_by_status]; it selects
    [t.id, t.title, t.description, t.priority, t.deadline], the
    assignee's full name as [assignee] and the reporter's as [reporter]. *)
Definition department_tasks_by_status (department_id status_id : Z) : statement (list row) :=
  query "tasks" (λ s _,
    t ← merge_sort deadline_le
          (filter (λ t, t_department_id t = department_id ∧ t_status_id t = status_id)
             (tasks s));
    u_assignee ← left_join (filter (λ u, t_assignee_id t = Some (u_id u)) (users s));
    u_reporter ← filter (λ u, t_reporter_id t = u_id u) (users s);
    [ list_to_map
        [ ("id", VInt (t_id t));
          ("title", VText (t_title t));
          ("description", nullable VText (t_description t));
          ("priority", VText (t_priority t));
          ("deadline", nullable VInt (t_deadline t));
          ("assignee", nullable (λ u, VText (u_full_name u)) u_assignee);
          ("reporter", VText (u_full_name u_reporter)) ] ]).

(** A row of [get_all_statuses_with_id]. *)
Record status_row := StatusRow {
  sr_id : Z;
  sr_name : text
}.

Definition display_order_le (a b : status) : Prop := s_display_order a ≤ s_display_order b.

#[export] Instance display_order_le_dec a b : Decision (display_order_le a b).
Proof. unfold display_order_le. apply _. Defined.

(** [get_all_statuses_with_id] *)
Definition get_all_statuses_with_id : M (list status_row) :=
  result <- execute_query (query "statuses" (λ s _,
    (λ st, StatusRow (s_id st) (s_name st)) <$> merge_sort display_order_le (statuses s))) ;;
  ret (or_empty result).

Definition set_status (status_id : Z) (t : task) : task :=
  Task (t_id t) (t_title t) (t_description t) (t_assignee_id t) (t_reporter_id t)
    status_id (t_priority t) (t_deadline t) (t_department_id t).

Definition with_tasks (ts : list task) (s : store) : store :=
  Store (users s) (departments s) (statuses s) ts (comments s)
    (permissions s) (notifications s) (mentions s) (clock s).

Inductive move_result :=
  | NoNextStatus                     (* no button is shown for the task *)
  | Moved (next_status : status_row)
  | MoveNotSaved.

(** [show_department_tasks_by_status], the body of the loop for the task
    whose move button was pressed; [task] is a row of the listing for
    [status_id]. *)
Definition show_department_tasks_by_status_move (status_id : Z) (task : row)
    : M move_result :=
  status_list <- get_all_statuses_with_id ;;
  match list_find (λ s, sr_id s = status_id) status_list with
  | Some (current_status_index, _) =>
    if decide (current_status_index < length status_list - 1)%nat then
      match status_list !! (current_status_index + 1)%nat with
      | Some next_status =>
        success <- execute_query (Statement (Update "tasks") (λ s c,
          Some (tt,
                with_tasks ((λ t, if decide (VInt (t_id t) = item task "id")
                                  then set_status (sr_id next_status) t else t)
                              <$> tasks s) s,
                c))) ;;
        if succeeded success then
          (if truthy (get task "assignee_id") then
             let notification_content :=
               codes "Task '" ++ str (item task "title")
                 ++ codes "' has been moved to " ++ sr_name next_status in
             add_notification (as_int (item task "assignee_id")) notification_content
               (Some (task_link (str (item task "id")))) ;;;
             ret tt
           else ret tt) ;;;
          ret (Moved next_status)
        else ret MoveNotSaved
      | None => ret NoNextStatus
      end
    else ret NoNextStatus
  | None => ret NoNextStatus
  end.

(** ** Batch update of a user's department permissions *)

(** An entry of [permissions_data]. *)
Record permission_entry := PermissionEntry {
  pe_department_id : Z;
  pe_department_name : text;
  pe_can_view : bool;
  pe_can_edit : bool
}.

Definition with_permissions (ps : list permission) (s : store) : store :=
  Store (users s) (departments s) (statuses s) (tasks s) (comments s)
    ps (notifications s) (mentions s) (clock s).

Definition set_flags (can_view can_edit : bool) (p : permission) : permission :=
  Permission (p_id p) (p_user_id p) (p_department_id p) can_view can_edit.

(** [admin_panel_page], the body of the loop over [permissions_data]:
    is there a row for the pair, then update it or insert one; the value
    says whether [result] was truthy. *)
Definition upsert_permission (user_id : Z) (perm : permission_entry) : M bool :=
  existing_perm <- execute_query (query "user_department_permissions" (λ s _,
    p_id <$> filter (λ p, p_user_id p = user_id ∧ p_department_id p = pe_department_id perm)
               (permissions s))) ;;
  result <-
    (if has_rows existing_perm then
       execute_query (Statement (Update "user_department_permissions") (λ s c,
         Some (tt,
               with_permissions
                 ((λ p, if decide (p_user_id p = user_id
                                   ∧ p_department_id p = pe_department_id perm)
                        then set_flags (pe_can_view perm) (pe_can_edit perm) p else p)
                    <$> permissions s) s,
               c)))
     else
       execute_query (Statement (Insert "user_department_permissions") (λ s c,
         let id := next_id (p_id <$> permissions s) in
         Some (tt,
               with_permissions
                 (permissions s ++ [Permission id user_id (pe_department_id perm)
                                      (pe_can_view perm) (pe_can_edit perm)]) s,
               Connection id)))) ;;
  ret (succeeded result).

Fixpoint upsert_permissions (user_id : Z) (permissions_data : list permission_entry)
    (success_count : nat) : M nat :=
  match permissions_data with
  | [] => ret success_count
  | perm :: rest =>
    result <- upsert_permission user_id perm ;;
    upsert_permissions user_id rest (if result then S success_count else success_count)
  end.

Inductive update_report :=
  | PermissionsUpdated
  | SomeNotUpdated (success_count total : nat).   (* "{success_count} of {total} updated" *)

(** [admin_panel_page], the permissions form once submitted. *)
Definition admin_panel_page_update_permissions (user_id : Z)
    (permissions_data : list permission_entry) : M update_report :=
  success_count <- upsert_permissions user_id permissions_data 0 ;;
  ret (if decide (success_count = length permissions_data) then PermissionsUpdated
       else SomeNotUpdated success_count (length permissions_data)).

(** The grant rows of a (user, department) pair. *)
Definition grants_for (user_id department_id : Z) (s : store) : list permission :=
  filter (λ p, p_user_id p = user_id ∧ p_department_id p = department_id)
    (permissions s).

(** What an upsert makes of the grant rows of its pair: where there was
    none there is one new row with the flags of the entry; rows that
    existed are the same rows as before, one for one, under their ids and
    for their pair, and each now carries the two flags of the entry. *)
Definition upserted (user_id : Z) (perm : permission_entry)
    (before after : list permission) : Prop :=
  match before with
  | [] => ∃ id, after = [Permission id user_id (pe_department_id perm)
                           (pe_can_view perm) (pe_can_edit perm)]
  | _ => Forall2 (λ old new, p_id new = p_id old ∧ p_user_id new = p_user_id old
                             ∧ p_department_id new = p_department_id old
                             ∧ p_can_view new = pe_can_view perm
                             ∧ p_can_edit new = pe_can_edit perm) before after
  end.

(** The fault plan of a batch in which every question for an existing
    row is answered and the write of entry [i] goes through iff
    [oks !! i] says so. *)
Definition batch_plan (oks : list bool) : list bool := ok ← oks; [true; ok].

Definition count_true (oks : list bool) : nat := length (filter (λ ok, ok = true) oks).

(** ** Department pages *)

(** A row of [get_department_by_name]. *)
Record department_row := DepartmentRow {
  dr_id : Z;
  dr_name : text;
  dr_description : option text
}.

(** [get_department_by_name] *)
Definition get_department_by_name (name : text) : M (option department_row) :=
  result <- execute_query (query "departments" (λ s _,
    (λ d, DepartmentRow (d_id d) (d_name d) (d_description d)) <$>
      filter (λ d, d_name d = name) (departments s))) ;;
  ret (match result with Some (first :: _) => Some first | _ => None end).

Inductive department_page_result :=
  | DepartmentNotFound
  | DepartmentDenied
  | DepartmentShown (department_id : Z).   (* the page goes on to render this department *)

(** [department_page], from its start to the point where it begins to
    render; [session_user_id] is [st.session_state['user_id']] when the
    key is there. *)
Definition department_page (session_user_id : option Z) (department_name : text)
    : M department_page_result :=
  department <- get_department_by_name department_name ;;
  match department with
  | None => ret DepartmentNotFound
  | Some department =>
    let department_id := dr_id department in
    match session_user_id with
    | Some user_id =>
      has_access <- check_department_access user_id department_id ;;
      if has_access then ret (DepartmentShown department_id) else ret DepartmentDenied
    | None => ret (DepartmentShown department_id)
    end
  end.

(** A row of [get_department_team_members]. *)
Record team_member := TeamMember {
  tm_id : Z;
  tm_username : text;
  tm_full_name : text;
  tm_email : text;
  tm_department : text;
  tm_can_view : bool;
  tm_can_edit : bool
}.

(** [get_department_team_members] *)
Definition get_department_team_members (department_id : Z) : M (list team_member) :=
  result <- execute_query (query "users" (λ s _,
    merge_sort (λ a b, collation_le (tm_full_name a) (tm_full_name b))
      (u ← users s;
       udp ← filter (λ udp, u_id u = p_user_id udp ∧ p_department_id udp = department_id
                            ∧ p_can_view udp = true) (permissions s);
       [TeamMember (u_id u) (u_username u) (u_full_name u) (u_email u) (u_department u)
          (p_can_view udp) (p_can_edit udp)]))) ;;
  ret (or_empty result).

(** ** Navigation *)

Definition department_suffix : text := codes " Department".

(** [sidebar], the options of the navigation box for a user with these
    accessible departments and this role. *)
Definition sidebar_menu_items (available_departments : list accessible_department)
    (role : option text) : list text :=
  [codes "Dashboard"; codes "My Tasks"; codes "Task Board"]
  ++ ((λ dept, ad_name dept ++ department_suffix) <$> available_departments)
  ++ [codes "Create Task"; codes "Reports"; codes "Team Members"]
  ++ (if decide (role = Some (codes "admin")) then [codes "Admin Panel"] else []).

(** [s.startswith(old)] *)
Fixpoint starts_with (old s : text) : bool :=
  match old, s with
  | [], _ => true
  | _ :: _, [] => false
  | a :: old', b :: s' => bool_decide (a = b) && starts_with old' s'
  end.

(** [old in s] *)
Fixpoint contains (old s : text) : bool :=
  starts_with old s || match s with [] => false | _ :: s' => contains old s' end.

(** [s.replace(old, "")] for a non-empty [old]: occurrences are sought
    from left to right and do not overlap ([skip] counts the characters
    of the current occurrence still to be dropped). *)
Fixpoint replace_from (old : text) (skip : nat) (s : text) : text :=
  match s with
  | [] => []
  | c :: s' =>
    match skip with
    | S k => replace_from old k s'
    | O => if starts_with old s then replace_from old (length old - 1) s'
           else c :: replace_from old 0 s'
    end
  end.

Definition replace_with_empty (old s : text) : text := replace_from old 0 s.

Inductive page :=
  | UserProfilePage
  | DashboardPage
  | MyTasksPage
  | CreateTaskPage
  | TaskBoardPage
  | ReportsPage
  | TeamMembersPage
  | AdminPanelPage
  | NotificationsPage
  | DepartmentPage (department_name : text)
  | PageNotFound.

(** [main], the choice of the page for the selected menu entry. *)
Definition main_route (menu : text) (role : option text) : page :=
  if decide (menu = codes "User Profile") then UserProfilePage
  else if decide (menu = codes "Dashboard") then DashboardPage
  else if decide (menu = codes "My Tasks") then MyTasksPage
  else if decide (menu = codes "Create Task") then CreateTaskPage
  else if decide (menu = codes "Task Board") then TaskBoardPage
  else if decide (menu = codes "Reports") then ReportsPage
  else if decide (menu = codes "Team Members") then TeamMembersPage
  else if decide (menu = codes "Admin Panel" ∧ role = Some (codes "admin"))
       then AdminPanelPage
  else if decide (menu = codes "Notifications") then NotificationsPage
  else if contains (codes "Department") menu
       then DepartmentPage (replace_with_empty department_suffix menu)
  else PageNotFound.

(** ** The notifications page *)

(** [created_at.date()] and [datetime.now().date()], for times counted in
    seconds. *)
Definition date (t : Z) : Z := t `div` 86400.

(** [notifications.sort(key=lambda x: x['created_at'], reverse=True)]:
    a stable sort, rows of equal time keep their order. *)
Fixpoint insert_newest_first (x : notification_row) (l : list notification_row)
    : list notification_row :=
  match l with
  | [] => [x]
  | y :: l' => if decide (nr_created_at x < nr_created_at y)
               then y :: insert_newest_first x l' else x :: l
  end.

Definition sort_newest_first (l : list notification_row) : list notification_row :=
  foldr insert_newest_first [] l.

(** [notifications and any(not notif['is_read'] for notif in notifications)] *)
Definition mark_all_offered (notifications : list notification_row) : bool :=
  bool_decide (Exists (λ notif, nr_is_read notif = false) notifications).

Record notification_groups := NotificationGroups {
  today_notifs : list notification_row;
  yesterday_notifs : list notification_row;
  older_notifs : list notification_row
}.

Inductive notifications_page_result :=
  | AllMarkedRead
  | NoNotifications
  | NotificationsShown (groups : notification_groups).

(** [notifications_page] for a logged-in user; [now] is
    [datetime.now()] and [pressed] says whether the user presses the
    mark-all button in case it is shown. *)
Definition notifications_page (user_id now : Z) (pressed : bool)
    : M notifications_page_result :=
  notifications <- get_user_notifications user_id ;;
  if mark_all_offered notifications && pressed then
    mark_all_notifications_read user_id ;;;
    ret AllMarkedRead
  else
    match notifications with
    | [] => ret NoNotifications
    | _ =>
      let notifications := sort_newest_first notifications in
      let today := date now in
      let yesterday := today - 1 in
      ret (NotificationsShown (NotificationGroups
        (filter (λ n, date (nr_created_at n) = today) notifications)
        (filter (λ n, date (nr_created_at n) = yesterday) notifications)
        (filter (λ n, date (nr_created_at n) < yesterday) notifications)))
    end.

(** ** Creating a task *)

Inductive create_task_result :=
  | TaskTitleRequired
  | TaskCreated
  | FailedToGetTaskId
  | FailedToCreateTask.

(** [create_task_page], the form once submitted, for a reporter, a
    status and a department that are set.  The loop over the tags writes
    to tables that are not part of this store; it is the parameter
    [link_tags], given the id of the task. *)
Definition create_task_page_submit (link_tags : Z → M unit) (reporter_id : Z)
    (title description priority : text) (deadline : Z) (assignee : option Z)
    (status department : Z) : M create_task_result :=
  if negb (nonempty title) then ret TaskTitleRequired
  else
    let assignee_id :=
      match assignee with
      | Some a => if a =? 0 then None else Some a
      | None => None
      end in
    success <- execute_query (Statement (Insert "tasks") (λ s c,
      let id := next_id (t_id <$> tasks s) in
      Some (tt,
            with_tasks (tasks s ++ [Task id title (Some description) assignee_id
                                      reporter_id status priority (Some deadline)
                                      department]) s,
            Connection id))) ;;
    if succeeded success then
      result <- execute_query (query "LAST_INSERT_ID()" (λ _ c, [last_insert_id c])) ;;
      match result with
      | Some (id :: _) =>
        if negb (id =? 0) then
          let task_id := id in
          link_tags task_id ;;;
          match assignee_id with
          | Some a =>
            add_notification a
              (codes "You have been assigned to task '" ++ title ++ codes "'")
              (Some (task_link (decimal task_id))) ;;;
            ret TaskCreated
          | None => ret TaskCreated
          end
        else ret FailedToGetTaskId
      | _ => ret FailedToGetTaskId
      end
    else ret FailedToCreateTask.

(** ** Editing a user as an admin *)





(** ** Bulk upload and the team view *)

(** A row of the uploaded file. *)
Record csv_row := CsvRow {
  csv_username : text;
  csv_full_name : text;
  csv_email : text;
  csv_department : text
}.

Record bulk_report := BulkReport {
  br_results : list (text * bulk_row_result);   (* username and what became of it *)
  br_success_count : nat;
  br_error_count : nat
}.

(** [team_members_page], the loop of the bulk upload; every row comes
    with the password [random.choices] draws if the row gets that far. *)
Fixpoint team_members_page_bulk_upload (data : list (text * csv_row))
    (report : bulk_report) : M bulk_report :=
  match data with
  | [] => ret report
  | (random_password, r) :: rest =>
    outcome <- team_members_page_bulk_row random_password (csv_username r)
                 (csv_full_name r) (csv_email r) (csv_department r) ;;
    team_members_page_bulk_upload rest
      (BulkReport (br_results report ++ [(csv_username r, outcome)])
         (match outcome with
          | BulkUserCreated _ => S (br_success_count report)
          | _ => br_success_count report
          end)
         (match outcome with
          | BulkUserCreated _ => br_error_count report
          | _ => S (br_error_count report)
          end))
  end.

(** The dictionary of a row of [get_all_users]. *)
Definition user_info_row (u : user_info) : row :=
  list_to_map
    [ ("id", VInt (ui_id u)); ("username", VText (ui_username u));
      ("full_name", VText (ui_full_name u)); ("email", VText (ui_email u));
      ("department", VText (ui_department u)); ("created_at", VInt (ui_created_at u)) ].

(** [team_members_page], the rows of the "View Team" table; [None] is
    the note that there are no team members. *)
Definition team_members_page_view (role : option text) : M (option (list row)) :=
  team_members <- get_all_users ;;
  match team_members with
  | Some (first :: rest) =>
    let team_members := user_info_row <$> first :: rest in
    ret (Some (if decide (role ≠ Some (codes "admin"))
               then filter (λ member, get member "role" ≠ VText (codes "admin"))
                      team_members
               else team_members))
  | _ => ret None
  end.

(** ** Listing the comments of a task *)

(** A row of [get_task_comments]. *)
Record comment_row := CommentRow {
  cr_id : Z;
  cr_comment : text;
  cr_created_at : Z;
  cr_full_name : text
}.

(** [ORDER BY c.created_at] *)
Definition oldest_first (a b : comment) : Prop := c_created_at a ≤ c_created_at b.

#[export] Instance oldest_first_dec a b : Decision (oldest_first a b).
Proof. unfold oldest_first. apply _. Defined.

(** [get_task_comments] *)
Definition get_task_comments (task_id : Z) : M (list comment_row) :=
  result <- execute_query (query "comments" (λ s _,
    c ← merge_sort oldest_first (filter (λ c, c_task_id c = task_id) (comments s));
    u ← filter (λ u, c_user_id c = u_id u) (users s);
    [CommentRow (c_id c) (c_comment c) (c_created_at c) (u_full_name u)])) ;;
  ret (or_empty result).

End Program.

(** ** A concrete platform and concrete stores for the examples

    The theorems below hold for every [Platform].  The examples run on
    this one: [\w] restricted to ASCII (letters, digits, underscore), the
    code-point order as collation, and a 64-digit checksum standing in for
    the SHA-256 digest. *)

Definition ascii_word (c : N) : bool :=
  ((48 <=? c) && (c <=? 57) || (65 <=? c) && (c <=? 90)
   || (97 <=? c) && (c <=? 122) || (c =? 95))%N.

Fixpoint code_point_le (a b : text) : bool :=
  match a, b with
  | [], _ => true
  | _ :: _, [] => false
  | x :: a', y :: b' => if (x <? y)%N then true else if (y <? x)%N then false
                        else code_point_le a' b'
  end.

Definition hex_digit (n : N) : N :=
  (if n <? 10 then 48 + n else 87 + n)%N.

Definition weighted_sum (j : N) (t : text) : N :=
  foldr (λ c acc, (c + (j + 3) * acc + 1) mod 65521)%N 7%N t.

Definition checksum_hexdigest (t : text) : text :=
  (λ j, hex_digit (weighted_sum (N.of_nat j) t mod 16)%N) <$> seq 0 64.

#[export] Instance example_platform : Platform := {
  re_word := ascii_word;
  sha256_hexdigest := checksum_hexdigest;
  collation_le := code_point_le;
  strict_sql_mode := true
}.

Definition default_statuses : list status :=
  [ Status 1 (codes "To Do") 1; Status 2 (codes "In Progress") 2;
    Status 3 (codes "Review") 3; Status 4 (codes "Done") 4 ].

Definition alice : user :=
  User 1 (codes "alice") (codes "Alice A") (codes "alice@edubull.com")
    (codes "Engineering") (Some (checksum_hexdigest (codes "alicepw1"))) (codes "user") 10.

Definition bob : user :=
  User 2 (codes "bob") (codes "Bob B") (codes "bob@edubull.com")
    (codes "Marketing") (Some (checksum_hexdigest (codes "secret123"))) (codes "user") 11.

Definition carol : user :=
  User 3 (codes "carol") (codes "Carol C") (codes "carol@edubull.com")
    (codes "Engineering") (Some (checksum_hexdigest (codes "oldpassword"))) (codes "user") 12.

Definition engineering : department := Department 1 (codes "Engineering") None.
Definition marketing : department := Department 2 (codes "Marketing") None.

(** A task of Engineering in "To Do", assigned to bob, reported by alice. *)
Definition fix_login : task :=
  Task 1 (codes "Fix login") None (Some 2) 1 1 (codes "High") None 1.

Definition example_store : store :=
  Store [alice; bob; carol] [engineering; marketing] default_statuses [fix_login]
    [] [Permission 1 2 2 true false] [] [] 100.

Definition example_world : world := World example_store [] [].

Definition bob_session : session := Session 2 (codes "Bob B").

(** The row of the task in the by-status listing of Engineering, "To Do". *)
Definition fix_login_row : row :=
  list_to_map
    [ ("id", VInt 1); ("title", VText (codes "Fix login")); ("description", VNull);
      ("priority", VText (codes "High")); ("deadline", VNull);
      ("assignee", VText (codes "Bob B")); ("reporter", VText (codes "Alice A")) ].


(** Two notifications of bob, one of them read, and one of alice. *)
Definition inbox_world : world :=
  World (Store [alice; bob] [] default_statuses [] [] []
           [ Notification 1 2 (codes "first") None false 5;
             Notification 2 2 (codes "second") None true 6;
             Notification 3 1 (codes "third") None false 7 ] [] 50) [] [].

(** A batch of two entries for bob in which the second write fails. *)
Definition example_batch : list permission_entry :=
  [ PermissionEntry 1 (codes "Engineering") true true;
    PermissionEntry 2 (codes "Marketing") true true ].

Definition example_batch_world : world :=
  World example_store (batch_plan [true; false]) [].

(** The permissions form for bob, submitted with every box cleared. *)
Definition revocation_batch : list permission_entry :=
  [ PermissionEntry 1 (codes "Engineering") false false;
    PermissionEntry 2 (codes "Marketing") false false ].

(** Every call is answered but one: the connection for the question
    whether bob has a grant for Marketing fails. *)
Definition failed_check_world : world :=
  World example_store [true; true; false; true] [].


(** bob's grant for Marketing in [example_store]. *)
Definition marketing_grant : permission := Permission 1 2 2 true false.

(** An accessible department as the sidebar lists it for bob. *)
Definition marketing_entry : accessible_department :=
  AccessibleDepartment 2 (codes "Marketing") None false.

(** 51 notifications of bob: the 50 newest are read, the oldest is not. *)
Definition forgotten : notification :=
  Notification 1 2 (codes "forgotten") None false 1.

Definition capped_world : world :=
  World (Store [alice; bob] [] default_statuses [] [] []
           (forgotten
            :: ((λ i, Notification (Z.of_nat i) 2 (codes "seen") None true (Z.of_nat i))
                  <$> seq 2 50)) [] 100) [] [].


(** * Properties *)

Section Properties.
Context `{Platform}.

(** ** [execute_query] *)

Lemma execute_query_query {A} from (f : store → connection → A) w :
  execute_query (query from f) w =
    match plan w with
    | false :: rest => (None, World (db w) rest (log w))
    | _ => (Some (f (db w) create_connection),
            World (db w) (tail (plan w)) (log w ++ [Select from]))
    end.
Proof. unfold execute_query. destruct (plan w) as [|[] ?]; reflexivity. Qed.

(** A query leaves the store as it is, and answers with the rows or not
    at all. *)
Lemma execute_query_query_inv {A} from (f : store → connection → A) w :
  db (execute_query (query from f) w).2 = db w
  ∧ ((execute_query (query from f) w).1 = None
     ∨ (execute_query (query from f) w).1 = Some (f (db w) create_connection)).
Proof.
  rewrite execute_query_query. destruct (plan w) as [|[] ?]; simpl; auto.
Qed.

(** In a world without planned faults every call goes through. *)
Lemma execute_query_no_fault {A} (q : statement A) w :
  plan w = [] →
  execute_query q w =
    match run q (db w) create_connection with
    | Some (a, s', _) => (Some a, World s' [] (log w ++ [kind q]))
    | None => (None, World (db w) [] (log w ++ [kind q]))
    end.
Proof. intros Hp. unfold execute_query. rewrite Hp. reflexivity. Qed.

(** ** Permission engine *)

Lemma filter_nil_forall {A} (P : A → Prop) `{∀ p, Decision (P p)}
    (ps : list A) :
  (∀ p, p ∈ ps → ¬ P p) → filter P ps = [].
Proof.
  intros Hno. induction ps as [|p ps IH]; [reflexivity|].
  rewrite filter_cons. destruct (decide (P p)) as [HP|_].
  - exfalso. apply (Hno p); [left | exact HP].
  - apply IH. intros q Hq. apply Hno. by right.
Qed.

(** C1. Without a grant row for (user, department) the view check says
    no, the department is not among the user's accessible departments,
    and the flags read from the user's grants for it are both false.
    Nothing else is consulted: the statement holds for every store, so for
    a user whose profile names the department too, and for every fault
    plan. *)
Theorem no_grant_no_access (user_id department_id : Z) (w : world) :
  (∀ p, p ∈ permissions (db w) →
        ¬ (p_user_id p = user_id ∧ p_department_id p = department_id)) →
  (check_department_access user_id department_id w).1 = false
  ∧ (∀ d, d ∈ (get_user_accessible_departments user_id w).1 → ad_id d ≠ department_id)
  ∧ current_flags (get_user_department_permissions user_id w).1 department_id
    = (false, false).
Proof.
  intros Hno. split; [|split].
  - unfold check_department_access, bind, ret.
    rewrite execute_query_query.
    rewrite (filter_nil_forall _ (permissions (db w))).
    + destruct (plan w) as [|[] ?]; reflexivity.
    + intros p Hp [Hu [Hd _]]. by apply (Hno p).
  - intros d. unfold get_user_accessible_departments, bind, ret.
    rewrite execute_query_query.
    destruct (plan w) as [|[] ?]; simpl;
      try (intros Hd; by apply elem_of_nil in Hd);
      rewrite merge_sort_Permutation;
      intros Hd; apply list_elem_of_bind in Hd as (dep & Hd & _);
      apply list_elem_of_bind in Hd as (udp & Hd & Hudp);
      apply list_elem_of_singleton in Hd; subst d; simpl;
      apply list_elem_of_filter in Hudp as [(Hid & Hu & _) Hudp];
      intros Heq; apply (Hno udp Hudp); split; congruence.
  - unfold get_user_department_permissions, bind, ret, current_flags.
    rewrite execute_query_query.
    assert (∀ rows : list department_permission,
              (∀ r, r ∈ rows → dp_department_id r ≠ department_id) →
              list_find (λ p, dp_department_id p = department_id) rows = None)
      as Hfind.
    { intros rows Hrows. apply list_find_None, Forall_forall. exact Hrows. }
    destruct (plan w) as [|[] ?]; simpl; try reflexivity;
      rewrite Hfind; try reflexivity;
      intros r Hr; apply list_elem_of_bind in Hr as (udp & Hr & Hudp);
      apply list_elem_of_bind in Hr as (dep & Hr & _);
      apply list_elem_of_singleton in Hr; subst r; simpl;
      apply list_elem_of_filter in Hudp as [Hu Hudp];
      intros Heq; apply (Hno udp Hudp); split; congruence.
Qed.

(** ** Notification inbox *)

Lemma set_read_is_read n : n_is_read (set_read n) = true.
Proof. reflexivity. Qed.

Lemma set_read_already_read n : n_is_read n = true → set_read n = n.
Proof. destruct n as [? ? ? ? r ?]; simpl. intros ->. reflexivity. Qed.

Lemma no_unread_after_mark_all user_id (ns : list notification) :
  filter (λ n, n_user_id n = user_id ∧ n_is_read n = false)
    ((λ n, if decide (n_user_id n = user_id) then set_read n else n) <$> ns) = [].
Proof.
  apply filter_nil_forall.
  intros n Hn [Hu Hr]. apply list_elem_of_fmap in Hn as (m & -> & _).
  destruct (decide (n_user_id m = user_id)) as [_|Hne].
  - by rewrite set_read_is_read in Hr.
  - by apply Hne.
Qed.

Lemma mark_read_twice notification_id (ns : list notification) :
  (λ n, if decide (n_id n = notification_id) then set_read n else n)
    <$> ((λ n, if decide (n_id n = notification_id) then set_read n else n) <$> ns)
  = (λ n, if decide (n_id n = notification_id) then set_read n else n) <$> ns.
Proof.
  rewrite <- list_fmap_compose. apply list_fmap_ext. intros _ n _. simpl.
  destruct (decide (n_id n = notification_id)) as [Heq|Hne]; simpl.
  - by rewrite decide_True.
  - by rewrite decide_False.
Qed.

(** C7. When [mark_all_notifications_read] went through for a user, the
    unread count read next for that user is 0.  Whatever notification
    [mark_notification_read] is asked to mark, and whether or not the call
    goes through, a notification that was read stays as it was, so its
    flag stays true; and marking the same notification again after a call
    that went through changes nothing. *)
Theorem read_flags_only_set (user_id notification_id : Z) (w : world) :
  (∀ w', mark_all_notifications_read user_id w = (Some (), w') →
         (get_unread_notification_count user_id w').1 = 0)
  ∧ (∀ i n, notifications (db w) !! i = Some n → n_is_read n = true →
            notifications (db (mark_notification_read notification_id w).2) !! i
            = Some n)
  ∧ ((mark_notification_read notification_id w).1 = Some () →
     db (mark_notification_read notification_id
           (mark_notification_read notification_id w).2).2
     = db (mark_notification_read notification_id w).2).
Proof.
  split; [|split].
  - intros w' Hmark.
    assert (notifications (db w')
            = (λ n, if decide (n_user_id n = user_id) then set_read n else n)
                <$> notifications (db w)) as Hns.
    { unfold mark_all_notifications_read, execute_query in Hmark. simpl in Hmark.
      destruct (plan w) as [|[] ?]; inversion Hmark; reflexivity. }
    unfold get_unread_notification_count, bind, ret.
    rewrite execute_query_query, Hns, no_unread_after_mark_all.
    destruct (plan w') as [|[] ?]; reflexivity.
  - intros i n Hi Hread.
    unfold mark_notification_read, execute_query. simpl.
    destruct (plan w) as [|[] ?]; simpl; try exact Hi;
      rewrite list_lookup_fmap, Hi; simpl;
      destruct (decide (n_id n = notification_id));
      by rewrite ?set_read_already_read.
  - unfold mark_notification_read, execute_query. simpl.
    destruct (plan w) as [|[] [|[] ?]]; simpl; try discriminate; intros _;
      try reflexivity;
      unfold update_notifications; simpl; by rewrite mark_read_twice.
Qed.

#[local] Instance newest_first_total : Total newest_first.
Proof. intros a b. unfold newest_first. lia. Qed.

#[local] Instance newest_first_transitive : Transitive newest_first.
Proof. intros a b c. unfold newest_first. lia. Qed.




(** X8. When the query is answered the cap is the only thing that shortens
    the inbox. *)
Lemma inbox_length user_id w :
  plan w = [] →
  length (get_user_notifications user_id w).1
  = (50 `min` length (filter (λ n, n_user_id n = user_id) (notifications (db w))))%nat.
Proof.
  intros Hp. unfold get_user_notifications, bind, ret.
  rewrite execute_query_query, Hp. simpl. unfold inbox.
  rewrite length_fmap, length_take.
  by rewrite (Permutation_length (merge_sort_Permutation _ _)).
Qed.

(** ** Credential store *)



Lemma select_user_id_known username (s : store) c :
  username ∈ u_username <$> users s →
  ∃ id ids, run (select_user_id username) s c = Some (id :: ids, s, c).
Proof.
  intros Hin. apply list_elem_of_fmap in Hin as (u & -> & Hu). simpl.
  assert (u ∈ filter (λ u0, u_username u0 = u_username u) (users s)) as Hf
    by (by apply list_elem_of_filter).
  destruct (filter (λ u0, u_username u0 = u_username u) (users s)) as [|v vs];
    [by apply elem_of_nil in Hf|].
  by exists (u_id v), (u_id <$> vs).
Qed.


Lemma salted_hash_not_plain salt password p :
  hexdigest_64 → salted_hash salt password ≠ hash_password p.
Proof.
  intros H64 Heq. apply (f_equal length) in Heq.
  unfold salted_hash, hash_password in Heq.
  rewrite !length_app, !H64 in Heq. simpl in Heq. lia.
Qed.

Lemma NoDup_fmap_eq {A B} (f : A → B) (l : list A) x y :
  NoDup (f <$> l) → x ∈ l → y ∈ l → f x = f y → x = y.
Proof.
  induction l as [|a l IH]; intros Hnd Hx Hy Hf; [by apply elem_of_nil in Hx|].
  rewrite fmap_cons in Hnd. apply NoDup_cons in Hnd as [Ha Hnd].
  apply elem_of_cons in Hx as [->|Hx]; apply elem_of_cons in Hy as [->|Hy].
  - reflexivity.
  - exfalso. apply Ha. rewrite Hf. by apply list_elem_of_fmap_2.
  - exfalso. apply Ha. rewrite <- Hf. by apply list_elem_of_fmap_2.
  - by apply IH.
Qed.

(** X12. A row that holds a plain digest, as every other form writes it,
    never passes the check of the current password: the form compares
    the stored value with a salted one. *)
Lemma plain_hash_cannot_change user_id salt current_password new_password
    confirm_password w p others :
  hexdigest_64 →
  u_password_hash <$> filter (λ u, u_id u = user_id) (users (db w))
  = Some (hash_password p) :: others →
  (user_profile_page_change_password user_id salt current_password new_password
     confirm_password w).1 ≠ PasswordChanged.
Proof.
  intros H64 Hrow. unfold user_profile_page_change_password.
  destruct (negb (nonempty current_password) || negb (nonempty new_password)
            || negb (nonempty confirm_password)); [discriminate|].
  destruct (decide (new_password ≠ confirm_password)); [discriminate|].
  destruct (decide (length new_password < 8)%nat); [discriminate|].
  unfold bind, ret. rewrite execute_query_query, Hrow.
  destruct (plan w) as [|[] rest]; simpl; try discriminate;
    destruct (nonempty (hash_password p)); try discriminate;
    (rewrite decide_True by apply (salted_hash_not_plain _ _ _ H64));
    discriminate.
Qed.

(** ** Registration and duplicate usernames *)

Lemma execute_query_through {A} (q : statement A) w :
  head (plan w) ≠ Some false →
  execute_query q w =
    match run q (db w) create_connection with
    | Some (a, s', _) => (Some a, World s' (tail (plan w)) (log w ++ [kind q]))
    | None => (None, World (db w) (tail (plan w)) (log w ++ [kind q]))
    end.
Proof.
  intros Hhead. unfold execute_query.
  destruct (plan w) as [|[] ?]; try reflexivity. by destruct Hhead.
Qed.

(** X13. The registration form asks first: when the name is in use and the
    question is answered, the form reports it; the question is the only
    statement sent and the store is as before. *)
Lemma login_page_register_duplicate username full_name email department password w :
  head (plan w) ≠ Some false →
  nonempty username = true → nonempty full_name = true →
  nonempty email = true → nonempty password = true →
  username ∈ u_username <$> users (db w) →
  login_page_register username full_name email department password password w
  = (UsernameAlreadyExists, World (db w) (tail (plan w)) (log w ++ [Select "users"])).
Proof.
  intros Hhead Hu Hf He Hp Hin.
  unfold login_page_register. rewrite Hu, Hf, He, Hp. simpl.
  rewrite decide_True by reflexivity. unfold bind, ret.
  rewrite (execute_query_through _ w Hhead).
  destruct (select_user_id_known username (db w) create_connection Hin)
    as (id & ids & ->). reflexivity.
Qed.

(** X14. The add-user form of the admin panel asks first too: for a name in
    use it reports it, having sent the question and nothing else, and the
    store is as before. *)
Lemma admin_panel_page_add_user_duplicate username full_name email department role
    password w :
  head (plan w) ≠ Some false →
  nonempty username = true → nonempty full_name = true →
  nonempty email = true → nonempty password = true →
  username ∈ u_username <$> users (db w) →
  admin_panel_page_add_user username full_name email department role password password w
  = (UsernameAlreadyExists, World (db w) (tail (plan w)) (log w ++ [Select "users"])).
Proof.
  intros Hhead Hu Hf He Hp Hin.
  unfold admin_panel_page_add_user. rewrite Hu, Hf, He, Hp. simpl.
  rewrite decide_True by reflexivity. unfold bind, ret.
  rewrite (execute_query_through _ w Hhead).
  destruct (select_user_id_known username (db w) create_connection Hin)
    as (id & ids & ->). reflexivity.
Qed.


(** A form whose fields fail validation sends nothing. *)
Lemma login_page_register_invalid username full_name email department password
    confirm_password w :
  (nonempty username && nonempty full_name && nonempty email
   && nonempty password && nonempty confirm_password = false
   ∨ password ≠ confirm_password) →
  (login_page_register username full_name email department password confirm_password w).2
  = w.
Proof.
  intros Hbad. unfold login_page_register.
  destruct (nonempty username && nonempty full_name && nonempty email
            && nonempty password && nonempty confirm_password); [|reflexivity].
  destruct Hbad as [Hbad|Hbad]; [discriminate|].
  by rewrite decide_False.
Qed.

(** The add-team-member form does not ask: for a name in use the first
    and only statement it sends is the [INSERT], which the [UNIQUE]
    column refuses. *)
Lemma team_members_page_add_member_duplicate random_password username full_name
    email department w :
  head (plan w) ≠ Some false →
  nonempty username = true → nonempty full_name = true → nonempty email = true →
  username ∈ u_username <$> users (db w) →
  team_members_page_add_member random_password username full_name email department w
  = (MemberNotAdded, World (db w) (tail (plan w)) (log w ++ [Insert "users"])).
Proof.
  intros Hhead Hu Hf He Hin.
  unfold team_members_page_add_member, add_team_member. rewrite Hu, Hf, He. simpl.
  unfold bind, ret. rewrite (execute_query_through _ w Hhead). simpl.
  by rewrite decide_True.
Qed.

(** ** Comments and mentions *)

(** The id [add_comment] returns is never truthy: the insert ran on a
    connection that is closed, and the connection asked for
    [LAST_INSERT_ID()] has inserted nothing. *)
Lemma add_comment_id_falsy task_id user_id comment w :
  truthy_id (add_comment task_id user_id comment w).1 = false.
Proof.
  unfold add_comment, bind, ret.
  destruct (execute_query _ w) as [r w1].
  rewrite execute_query_query.
  destruct (plan w1) as [|[] ?]; reflexivity.
Qed.

Lemma add_comment_keeps_inbox task_id user_id comment w :
  mentions (db (add_comment task_id user_id comment w).2) = mentions (db w)
  ∧ notifications (db (add_comment task_id user_id comment w).2) = notifications (db w).
Proof.
  unfold add_comment, bind, ret.
  destruct (execute_query _ w) as [r w1] eqn:Hins.
  assert (mentions (db w1) = mentions (db w)
          ∧ notifications (db w1) = notifications (db w)) as [Hm Hn].
  { unfold execute_query in Hins. simpl in Hins.
    destruct (plan w) as [|[] ?]; try destruct (decide _); inversion Hins; auto. }
  rewrite execute_query_query.
  destruct (plan w1) as [|[] ?]; simpl; auto.
Qed.

Lemma extract_mentions_keeps_db t w :
  db (extract_mentions t w).2 = db w.
Proof.
  unfold extract_mentions, get_all_users, bind, ret.
  rewrite execute_query_query.
  destruct (plan w) as [|[] ?]; reflexivity.
Qed.

(** Submitting a comment never creates a mention or a notification,
    whatever the text mentions. *)
Lemma add_comment_form_no_fan_out ss task_id task_title comment_text w :
  mentions (db (show_department_tasks_add_comment ss task_id task_title comment_text w).2)
  = mentions (db w)
  ∧ notifications
      (db (show_department_tasks_add_comment ss task_id task_title comment_text w).2)
    = notifications (db w).
Proof.
  unfold show_department_tasks_add_comment.
  destruct (nonempty comment_text); [|auto].
  unfold bind, ret.
  pose proof (extract_mentions_keeps_db comment_text w) as Hdb.
  destruct (extract_mentions comment_text w) as [[ids|] w1]; simpl in Hdb;
    [|simpl; by rewrite Hdb].
  pose proof (add_comment_id_falsy task_id (session_user_id ss) comment_text w1) as Hid.
  pose proof (add_comment_keeps_inbox task_id (session_user_id ss) comment_text w1)
    as [Hm Hn].
  destruct (add_comment task_id (session_user_id ss) comment_text w1) as [cid w2].
  simpl in *. rewrite Hid. simpl. by rewrite Hm, Hn, Hdb.
Qed.

(** What the loop over the mentioned users does once it is reached, in
    a run without faults: one mention and one notification per entry of
    the list, in its order, repeated entries included. *)
Lemma process_mentions_no_fault ss task_id task_title comment_id mentioned_users w :
  plan w = [] →
  mentions (db (process_mentions ss task_id task_title comment_id mentioned_users w).2)
  = mentions (db w) ++ ((λ u, Mention comment_id u false) <$> mentioned_users)
  ∧ n_user_id <$>
      notifications
        (db (process_mentions ss task_id task_title comment_id mentioned_users w).2)
    = (n_user_id <$> notifications (db w)) ++ mentioned_users.
Proof.
  revert w. induction mentioned_users as [|u rest IH]; intros w Hplan.
  - simpl. by rewrite !app_nil_r.
  - simpl. unfold bind, add_mention, add_notification.
    rewrite (execute_query_no_fault _ w Hplan). simpl.
    match goal with |- context [process_mentions _ _ _ _ rest ?w1] =>
      destruct (IH w1 eq_refl) as [Hm Hn]; rewrite Hm, Hn end.
    simpl. rewrite fmap_app. simpl. by rewrite <- !app_assoc.
Qed.

(** [extract_mentions] keeps every occurrence of a known name. *)
Lemma extract_mentions_no_fault t w :
  plan w = [] →
  (extract_mentions t w).1
  = Some (omap (λ username,
                  username_map_of
                    (merge_sort (λ a b, collation_le (ui_full_name a) (ui_full_name b))
                       (user_info_of <$> users (db w))) !! username)
            (findall t)).
Proof.
  intros Hplan. unfold extract_mentions, get_all_users, bind, ret.
  rewrite execute_query_query, Hplan. reflexivity.
Qed.

(** ** Task status transition *)

(** A row of the by-status listing belongs to a task of that department
    and status, and has no key [assignee_id]. *)
Lemma listing_row_keys department_id status_id s c rows s' c' r :
  run (department_tasks_by_status department_id status_id) s c = Some (rows, s', c') →
  r ∈ rows →
  r !! "assignee_id" = None
  ∧ ∃ t, t ∈ tasks s ∧ t_department_id t = department_id ∧ t_status_id t = status_id
         ∧ r !! "id" = Some (VInt (t_id t)).
Proof.
  simpl. intros Hrun Hr. simplify_eq.
  apply list_elem_of_bind in Hr as (t & Hr & Ht).
  apply list_elem_of_bind in Hr as (a & Hr & _).
  apply list_elem_of_bind in Hr as (rep & Hr & _).
  apply list_elem_of_singleton in Hr. subst r.
  rewrite merge_sort_Permutation in Ht.
  apply list_elem_of_filter in Ht as [[Hd Hst] Ht].
  split; [reflexivity|]. exists t. repeat split; auto.
Qed.

(** The move never writes to the notifications when the row has no key
    [assignee_id]. *)
Lemma move_keeps_notifications status_id (task : row) w :
  task !! "assignee_id" = None →
  notifications (db (show_department_tasks_by_status_move status_id task w).2)
  = notifications (db w).
Proof.
  intros Hkey.
  unfold show_department_tasks_by_status_move, get_all_statuses_with_id, bind, ret.
  rewrite execute_query_query.
  assert (truthy (get task "assignee_id") = false) as Hfalsy
    by (unfold get; by rewrite Hkey).
  rewrite Hfalsy.
  destruct (plan w) as [|[] rest]; simpl;
    repeat (case_match; simpl; try reflexivity);
    unfold execute_query in *; simpl in *;
    repeat (case_match; simplify_eq; simpl; try reflexivity);
    reflexivity.
Qed.

(** No button on the last status of the catalog: nothing is sent but
    the question for the catalog, and the store is as before. *)
Lemma move_from_last_status status_id (task : row) w st :
  let status_list :=
    (λ st, StatusRow (s_id st) (s_name st)) <$> merge_sort display_order_le (statuses (db w)) in
  list_find (λ s, sr_id s = status_id) status_list
  = Some ((length status_list - 1)%nat, st) →
  (show_department_tasks_by_status_move status_id task w).1 = NoNextStatus
  ∧ db (show_department_tasks_by_status_move status_id task w).2 = db w.
Proof.
  intros status_list Hfind.
  unfold show_department_tasks_by_status_move, get_all_statuses_with_id, bind, ret.
  rewrite execute_query_query.
  destruct (plan w) as [|[] rest]; simpl; auto;
    fold status_list; rewrite Hfind;
    (rewrite decide_False by lia); auto.
Qed.

(** One step forward: in a run without faults, from a status that has a
    successor in display order the task is moved to that successor. *)
Lemma move_to_successor status_id (task : row) w i st next_status :
  let status_list :=
    (λ st, StatusRow (s_id st) (s_name st)) <$> merge_sort display_order_le (statuses (db w)) in
  plan w = [] →
  list_find (λ s, sr_id s = status_id) status_list = Some (i, st) →
  status_list !! (i + 1)%nat = Some next_status →
  (show_department_tasks_by_status_move status_id task w).1 = Moved next_status
  ∧ tasks (db (show_department_tasks_by_status_move status_id task w).2)
    = (λ t, if decide (VInt (t_id t) = item task "id")
            then set_status (sr_id next_status) t else t) <$> tasks (db w).
Proof.
  intros status_list Hplan Hfind Hnext.
  assert (i < length status_list - 1)%nat as Hlt
    by (apply lookup_lt_Some in Hnext; lia).
  unfold show_department_tasks_by_status_move, get_all_statuses_with_id, bind, ret.
  rewrite execute_query_query, Hplan. simpl.
  fold status_list. rewrite Hfind, decide_True by exact Hlt. rewrite Hnext.
  destruct (truthy (get task "assignee_id")); simpl; auto.
Qed.

(** ** Batch update of permissions *)

Lemma filter_fmap_untouched {A} (P : A → Prop) `{∀ x, Decision (P x)} (f : A → A)
    (l : list A) :
  (∀ x, P (f x) ↔ P x) → (∀ x, P x → f x = x) →
  filter P (f <$> l) = filter P l.
Proof.
  intros Hiff Hid. induction l as [|x l IH]; [reflexivity|].
  rewrite fmap_cons, !filter_cons, IH.
  destruct (decide (P x)) as [HP|HP].
  - rewrite decide_True by (by apply Hiff). by rewrite Hid.
  - by rewrite decide_False by (by rewrite Hiff).
Qed.

Lemma filter_fmap_rewritten {A} (P : A → Prop) `{∀ x, Decision (P x)} (g : A → A)
    (l : list A) :
  (∀ x, P (g x) ↔ P x) →
  filter P ((λ x, if decide (P x) then g x else x) <$> l) = g <$> filter P l.
Proof.
  intros Hiff. induction l as [|x l IH]; [reflexivity|].
  rewrite fmap_cons, !filter_cons, IH.
  destruct (decide (P x)) as [HP|HP].
  - by rewrite decide_True by (by apply Hiff).
  - by rewrite decide_False.
Qed.

(** An upsert leaves the grant rows of every other pair alone, whatever
    the faults. *)
Lemma upsert_permission_other user_id perm user_id' department_id' w :
  ¬ (user_id' = user_id ∧ department_id' = pe_department_id perm) →
  grants_for user_id' department_id' (db (upsert_permission user_id perm w).2)
  = grants_for user_id' department_id' (db w).
Proof.
  intros Hother. unfold upsert_permission, bind, ret.
  rewrite execute_query_query.
  assert (∀ ps : list permission,
    filter (λ p, p_user_id p = user_id' ∧ p_department_id p = department_id')
      ((λ p, if decide (p_user_id p = user_id ∧ p_department_id p = pe_department_id perm)
             then set_flags (pe_can_view perm) (pe_can_edit perm) p else p) <$> ps)
    = filter (λ p, p_user_id p = user_id' ∧ p_department_id p = department_id') ps)
    as Hupd.
  { intros ps. apply filter_fmap_untouched.
    - intros p. by destruct (decide _).
    - intros p [Hu Hd]. rewrite decide_False; [reflexivity|].
      intros [Hu' Hd']. apply Hother. split; congruence. }
  assert (∀ (ps : list permission) id,
    filter (λ p, p_user_id p = user_id' ∧ p_department_id p = department_id')
      (ps ++ [Permission id user_id (pe_department_id perm)
                (pe_can_view perm) (pe_can_edit perm)])
    = filter (λ p, p_user_id p = user_id' ∧ p_department_id p = department_id') ps)
    as Hins.
  { intros ps id. rewrite filter_app, filter_cons, decide_False.
    - by rewrite filter_nil, app_nil_r.
    - simpl. intros [Hu Hd]. apply Hother. split; congruence. }
  unfold grants_for.
  destruct (plan w) as [|[] rest]; cbv beta iota zeta;
    match goal with |- context [has_rows ?r] => destruct (has_rows r) end;
    unfold execute_query; simpl;
    try (destruct rest as [|[] ?]; simpl); auto.
Qed.

(** One upsert whose question is answered. *)
Lemma upsert_permission_step user_id perm ok rest w :
  plan w = true :: ok :: rest →
  (upsert_permission user_id perm w).1 = ok
  ∧ plan (upsert_permission user_id perm w).2 = rest
  ∧ (ok = true →
     upserted user_id perm (grants_for user_id (pe_department_id perm) (db w))
       (grants_for user_id (pe_department_id perm)
          (db (upsert_permission user_id perm w).2)))
  ∧ (ok = false → db (upsert_permission user_id perm w).2 = db w).
Proof.
  intros Hplan. unfold upsert_permission, bind, ret.
  rewrite execute_query_query, Hplan. simpl.
  unfold grants_for, upserted.
  destruct (filter (λ p, p_user_id p = user_id ∧ p_department_id p = pe_department_id perm)
              (permissions (db w))) as [|p ps] eqn:Hold; simpl.
  - unfold execute_query. simpl. destruct ok; simpl; repeat split; try done.
    intros _. eexists. rewrite filter_app, Hold, filter_cons, decide_True by done.
    reflexivity.
  - unfold execute_query. simpl. destruct ok; simpl; repeat split; try done.
    intros _.
    rewrite (filter_fmap_rewritten
               (λ p, p_user_id p = user_id ∧ p_department_id p = pe_department_id perm)).
    + rewrite Hold. apply Forall2_fmap_r, Forall_Forall2_diag, Forall_forall.
      intros q _. simpl. auto.
    + intros q. reflexivity.
Qed.

Lemma count_true_cons ok oks :
  count_true (ok :: oks) = ((if ok then 1 else 0) + count_true oks)%nat.
Proof. unfold count_true. rewrite filter_cons. by destruct ok. Qed.

Lemma upsert_permissions_cons user_id perm rest success_count w :
  upsert_permissions user_id (perm :: rest) success_count w
  = let '(result, w1) := upsert_permission user_id perm w in
    upsert_permissions user_id rest (if result then S success_count else success_count) w1.
Proof. reflexivity. Qed.

Lemma upsert_permissions_spec user_id permissions_data :
  ∀ oks success_count w rest,
    NoDup (pe_department_id <$> permissions_data) →
    length oks = length permissions_data →
    plan w = batch_plan oks ++ rest →
    (upsert_permissions user_id permissions_data success_count w).1
    = (success_count + count_true oks)%nat
    ∧ (∀ d, d ∉ pe_department_id <$> permissions_data →
            grants_for user_id d
              (db (upsert_permissions user_id permissions_data success_count w).2)
            = grants_for user_id d (db w))
    ∧ (∀ i perm, permissions_data !! i = Some perm →
         (oks !! i = Some true →
          upserted user_id perm (grants_for user_id (pe_department_id perm) (db w))
            (grants_for user_id (pe_department_id perm)
               (db (upsert_permissions user_id permissions_data success_count w).2)))
         ∧ (oks !! i = Some false →
            grants_for user_id (pe_department_id perm)
              (db (upsert_permissions user_id permissions_data success_count w).2)
            = grants_for user_id (pe_department_id perm) (db w))).
Proof.
  induction permissions_data as [|perm ps IH];
    intros oks success_count w rest Hnd Hlen Hplan.
  - destruct oks; [|discriminate]. simpl. unfold count_true. simpl.
    repeat split; try done; lia.
  - destruct oks as [|ok oks]; [discriminate|].
    rewrite fmap_cons in Hnd. apply NoDup_cons in Hnd as [Hfresh Hnd].
    simpl in Hlen. injection Hlen as Hlen.
    unfold batch_plan in Hplan. rewrite bind_cons in Hplan. simpl in Hplan.
    destruct (upsert_permission_step user_id perm ok _ w Hplan)
      as (Hres & Hplan1 & Hok & Hfail).
    pose proof (λ d, upsert_permission_other user_id perm user_id d w) as Hother.
    rewrite upsert_permissions_cons.
    destruct (upsert_permission user_id perm w) as [result w1].
    simpl in Hres, Hplan1, Hok, Hfail, Hother. subst result.
    destruct (IH oks (if ok then S success_count else success_count) w1 rest
                Hnd Hlen Hplan1) as (Hcount & Hkeep & Heach).
    split; [|split].
    + rewrite Hcount, count_true_cons. destruct ok; lia.
    + intros d Hd. rewrite fmap_cons, not_elem_of_cons in Hd. destruct Hd as [Hne Hd].
      rewrite (Hkeep d Hd). apply Hother. intros [_ ?]. by apply Hne.
    + intros [|i] perm' Hperm'; simpl in Hperm'.
      * simplify_eq. rewrite (Hkeep _ Hfresh). simpl. split.
        -- intros Heq. simplify_eq. by apply Hok.
        -- intros Heq. simplify_eq. by rewrite Hfail.
      * assert (pe_department_id perm' ≠ pe_department_id perm) as Hne.
        { intros Heq. apply Hfresh. rewrite <- Heq.
          apply list_elem_of_fmap_2. by eapply list_elem_of_lookup_2. }
        assert (grants_for user_id (pe_department_id perm') (db w1)
                = grants_for user_id (pe_department_id perm') (db w)) as Hsame.
        { apply Hother. intros [_ ?]. by apply Hne. }
        destruct (Heach i perm' Hperm') as [H1 H2]. simpl.
        rewrite <- Hsame. split; assumption.
Qed.

(** The permissions form makes one upsert per entry and counts the
    ones that went through.  For a batch over distinct departments in
    which every question for the existing row is answered and the write of
    entry [i] goes through iff [oks !! i]: the report is the success
    message when all went through and otherwise the count out of the
    total; an entry whose write went through has its grant upserted in the
    final store (rows that existed have both flags overwritten, where
    there was none there is one new row), also when a later or an earlier
    entry failed; an entry whose write failed leaves its grant rows as
    they were. *)
Lemma permission_batch_not_atomic (user_id : Z)
    (permissions_data : list permission_entry) (oks : list bool) (w : world) :
  NoDup (pe_department_id <$> permissions_data) →
  length oks = length permissions_data →
  plan w = batch_plan oks →
  (admin_panel_page_update_permissions user_id permissions_data w).1
  = (if decide (count_true oks = length permissions_data) then PermissionsUpdated
     else SomeNotUpdated (count_true oks) (length permissions_data))
  ∧ ∀ i perm, permissions_data !! i = Some perm →
      (oks !! i = Some true →
       upserted user_id perm (grants_for user_id (pe_department_id perm) (db w))
         (grants_for user_id (pe_department_id perm)
            (db (admin_panel_page_update_permissions user_id permissions_data w).2)))
      ∧ (oks !! i = Some false →
         grants_for user_id (pe_department_id perm)
           (db (admin_panel_page_update_permissions user_id permissions_data w).2)
         = grants_for user_id (pe_department_id perm) (db w)).
Proof.
  intros Hnd Hlen Hplan.
  destruct (upsert_permissions_spec user_id permissions_data oks 0%nat w [] Hnd Hlen)
    as (Hcount & _ & Heach); [by rewrite app_nil_r|].
  unfold admin_panel_page_update_permissions, bind, ret.
  destruct (upsert_permissions user_id permissions_data 0 w) as [n w'].
  simpl in *. subst n. split; [reflexivity | exact Heach].
Qed.
(** ** Resolving mentions *)

Lemma findall_from_no_at (pre s : text) :
  (∀ c, c ∈ pre → c ≠ at_sign) → findall_from 0 (pre ++ s) = findall_from 0 s.
Proof.
  induction pre as [|c pre IH]; intros Hpre; [reflexivity|].
  simpl. rewrite decide_False by (apply Hpre; by left).
  apply IH. intros c' Hc'. apply Hpre. by right.
Qed.

Lemma word_prefix_token (name post : text) :
  Forall (λ c, re_word c = true) name →
  word_prefix post = [] →
  word_prefix (name ++ post) = name.
Proof.
  intros Hname Hpost. induction Hname as [|c name Hc _ IH]; [exact Hpost|].
  simpl. by rewrite Hc, IH.
Qed.

Lemma findall_from_skip (name post : text) :
  findall_from (length name) (name ++ post) = findall_from 0 post.
Proof. induction name as [|c name IH]; [reflexivity | exact IH]. Qed.

(** X19. A token: text without [@], then [@], a name of word characters, and
    behind it no further word character.  The name is found, and the scan
    goes on behind it. *)
Lemma findall_token (pre name post : text) :
  (∀ c, c ∈ pre → c ≠ at_sign) →
  name ≠ [] → Forall (λ c, re_word c = true) name → word_prefix post = [] →
  findall (pre ++ at_sign :: name ++ post) = name :: findall post.
Proof.
  intros Hpre Hne Hname Hpost. unfold findall.
  rewrite findall_from_no_at by exact Hpre. simpl.
  rewrite (word_prefix_token name post Hname Hpost).
  destruct name as [|c name]; [done|].
  f_equal. exact (findall_from_skip (c :: name) post).
Qed.


Lemma username_map_unknown (l : list user_info) (m : gmap text Z) name :
  name ∉ ui_username <$> l →
  foldl (λ m user, <[ui_username user := ui_id user]> m) m l !! name = m !! name.
Proof.
  revert m. induction l as [|a l IH]; intros m Hname; [reflexivity|].
  rewrite fmap_cons, not_elem_of_cons in Hname. destruct Hname as [Hne Hname].
  simpl. rewrite IH by exact Hname. by rewrite lookup_insert_ne.
Qed.

Lemma username_map_known (l : list user_info) (m : gmap text Z) u :
  NoDup (ui_username <$> l) → u ∈ l →
  foldl (λ m user, <[ui_username user := ui_id user]> m) m l !! ui_username u
  = Some (ui_id u).
Proof.
  revert m. induction l as [|a l IH]; intros m Hnd Hu; [by apply elem_of_nil in Hu|].
  rewrite fmap_cons in Hnd. apply NoDup_cons in Hnd as [Hfresh Hnd].
  apply elem_of_cons in Hu as [->|Hu]; simpl.
  - rewrite username_map_unknown by exact Hfresh. apply lookup_insert_eq.
  - by apply IH.
Qed.

Lemma username_map_found (l : list user_info) (m : gmap text Z) name id :
  foldl (λ m user, <[ui_username user := ui_id user]> m) m l !! name = Some id →
  m !! name = Some id ∨ ∃ u, u ∈ l ∧ ui_username u = name ∧ ui_id u = id.
Proof.
  revert m. induction l as [|a l IH]; intros m Hfound; [by left|].
  simpl in Hfound. apply IH in Hfound as [Hm|(u & Hu & Hname & Hid)].
  - destruct (decide (ui_username a = name)) as [Heq|Hne].
    + rewrite <- Heq, lookup_insert_eq in Hm. right. exists a.
      split; [by left|]. split; congruence.
    + rewrite lookup_insert_ne in Hm by exact Hne. by left.
  - right. exists u. split; [by right|]. auto.
Qed.

(** With unique usernames and ids, the map built from [get_all_users]
    sends a name to an id exactly for the user of that name. *)
Lemma username_map_of_users (s : store) u name :
  NoDup (u_username <$> users s) → NoDup (u_id <$> users s) → u ∈ users s →
  username_map_of
    (merge_sort (λ a b, collation_le (ui_full_name a) (ui_full_name b))
       (user_info_of <$> users s)) !! name = Some (u_id u)
  ↔ name = u_username u.
Proof.
  intros Hnames Hids Hu. unfold username_map_of.
  set (infos := merge_sort _ (user_info_of <$> users s)).
  assert (infos ≡ₚ user_info_of <$> users s) as Hperm
    by apply merge_sort_Permutation.
  assert (ui_username <$> infos ≡ₚ u_username <$> users s) as Hpn.
  { rewrite Hperm, <- list_fmap_compose. reflexivity. }
  split.
  - intros Hfound. apply username_map_found in Hfound
      as [Hempty|(i & Hi & Hname & Hid)]; [by rewrite lookup_empty in Hempty|].
    rewrite Hperm in Hi. apply list_elem_of_fmap in Hi as (u' & -> & Hu').
    simpl in Hname, Hid.
    assert (u' = u) as -> by (by eapply (NoDup_fmap_eq u_id)).
    by symmetry.
  - intros ->.
    change (u_username u) with (ui_username (user_info_of u)).
    change (u_id u) with (ui_id (user_info_of u)).
    apply username_map_known.
    + by rewrite Hpn.
    + rewrite Hperm. by apply list_elem_of_fmap_2.
Qed.

Lemma omap_cons_eq {A B} (f : A → option B) x (l : list A) :
  omap f (x :: l) = match f x with Some y => y :: omap f l | None => omap f l end.
Proof. reflexivity. Qed.

Lemma resolve_count (m : gmap text Z) (names : list text) name id :
  (∀ n, m !! n = Some id ↔ n = name) →
  length (filter (λ i, i = id) (omap (λ n, m !! n) names))
  = length (filter (λ n, n = name) names).
Proof.
  intros Hiff. induction names as [|n names IH]; [reflexivity|].
  rewrite omap_cons_eq, (filter_cons (λ n, n = name)).
  destruct (decide (n = name)) as [Heq|Hne].
  - apply Hiff in Heq. rewrite Heq.
    rewrite filter_cons_True by reflexivity. simpl. by rewrite IH.
  - destruct (m !! n) as [i|] eqn:Hm; [|exact IH].
    rewrite filter_cons_False; [exact IH|].
    intros ->. by apply Hne, Hiff.
Qed.

(** What the two halves of the mention handling do on their own.  In a
    run without faults, with unique
    usernames and ids, [extract_mentions] raises nothing and resolves the
    tokens of the text one by one: a known user gets one entry per
    occurrence of the token with exactly that user's name (one
    occurrence, one entry), and every entry is the id of a known user
    whose name occurs as a token, so a token of an unknown name gives
    nothing.  The loop over these entries, once entered, writes one
    mention linked to the given comment and one notification addressed to
    the user per entry. *)
Lemma mentions_resolved_per_occurrence (t : text) (ss : session) (task_id : Z)
    (task_title : text) (comment_id : Z) (w w2 : world) :
  plan w = [] → plan w2 = [] →
  NoDup (u_username <$> users (db w)) →
  NoDup (u_id <$> users (db w)) →
  ∃ ids,
    (extract_mentions t w).1 = Some ids
    ∧ (∀ u, u ∈ users (db w) →
            length (filter (λ i, i = u_id u) ids)
            = length (filter (λ name, name = u_username u) (findall t)))
    ∧ (∀ i, i ∈ ids →
            ∃ u, u ∈ users (db w) ∧ u_id u = i ∧ u_username u ∈ findall t)
    ∧ mentions (db (process_mentions ss task_id task_title comment_id ids w2).2)
      = mentions (db w2) ++ ((λ u, Mention comment_id u false) <$> ids)
    ∧ n_user_id <$>
        notifications (db (process_mentions ss task_id task_title comment_id ids w2).2)
      = (n_user_id <$> notifications (db w2)) ++ ids.
Proof.
  intros Hplan Hplan2 Hnames Hids.
  eexists. split; [by apply extract_mentions_no_fault|]. split; [|split].
  - intros u Hu. apply resolve_count. intros n.
    by apply username_map_of_users.
  - intros i Hi. apply list_elem_of_omap in Hi as (n & Hn & Hfound).
    unfold username_map_of in Hfound.
    apply username_map_found in Hfound
      as [Hempty|(info & Hinfo & Hname & Hid)]; [by rewrite lookup_empty in Hempty|].
    rewrite merge_sort_Permutation in Hinfo.
    apply list_elem_of_fmap in Hinfo as (u & -> & Hu).
    exists u. simpl in Hname, Hid. subst. auto.
  - by apply process_mentions_no_fault.
Qed.

(** ** Department pages *)

Lemma fmap_filter_head {A B} (f : A → B) (P : A → Prop) `{∀ x, Decision (P x)}
    (l : list A) r rest :
  f <$> filter P l = r :: rest → ∃ x, x ∈ l ∧ P x ∧ r = f x.
Proof.
  intros Heq.
  assert (r ∈ f <$> filter P l) as Hr by (rewrite Heq; by left).
  apply list_elem_of_fmap in Hr as (x & -> & Hx).
  apply list_elem_of_filter in Hx as [HP Hx]. eauto.
Qed.

Lemma get_department_by_name_inv name w :
  db (get_department_by_name name w).2 = db w
  ∧ ∀ r, (get_department_by_name name w).1 = Some r →
         ∃ d, d ∈ departments (db w) ∧ d_name d = name
              ∧ r = DepartmentRow (d_id d) (d_name d) (d_description d).
Proof.
  unfold get_department_by_name, bind, ret. rewrite execute_query_query.
  destruct (plan w) as [|[] ?]; simpl; (split; [reflexivity|]); intros r;
    try discriminate;
    destruct (_ <$> filter _ _) as [|r0 rest] eqn:Hrows; try discriminate;
    intros [= <-]; by apply fmap_filter_head in Hrows.
Qed.

Lemma check_department_access_inv user_id department_id w :
  db (check_department_access user_id department_id w).2 = db w
  ∧ ((check_department_access user_id department_id w).1 = true →
     ∃ p, p ∈ permissions (db w) ∧ p_user_id p = user_id
          ∧ p_department_id p = department_id ∧ p_can_view p = true).
Proof.
  unfold check_department_access, bind, ret. rewrite execute_query_query.
  destruct (plan w) as [|[] ?]; simpl; (split; [reflexivity|]);
    try discriminate;
    destruct (_ <$> filter _ _) as [|r0 rest] eqn:Hrows; try discriminate;
    intros _; apply fmap_filter_head in Hrows as (p & Hp & (Hu & Hd & Hv) & _);
    exists p; auto.
Qed.

(** X1. The page of a department is shown to a logged-in user only if the
    department of that name exists and the user has a grant row for it
    with [can_view]; a failed query never opens the page.  The page only
    reads. *)
Theorem department_page_shown_only_with_grant (user_id : Z) (department_name : text)
    (w : world) :
  db (department_page (Some user_id) department_name w).2 = db w
  ∧ ∀ department_id,
      (department_page (Some user_id) department_name w).1
      = DepartmentShown department_id →
      (∃ d, d ∈ departments (db w) ∧ d_id d = department_id
            ∧ d_name d = department_name)
      ∧ (∃ p, p ∈ permissions (db w) ∧ p_user_id p = user_id
              ∧ p_department_id p = department_id ∧ p_can_view p = true).
Proof.
  unfold department_page, bind, ret.
  destruct (get_department_by_name_inv department_name w) as [Hdb Hrow].
  destruct (get_department_by_name department_name w) as [[r|] w1];
    simpl in *; [|split; [exact Hdb | discriminate]].
  destruct (Hrow r eq_refl) as (d & Hd & Hname & ->). simpl.
  destruct (check_department_access_inv user_id (d_id d) w1) as [Hdb1 Hgrant].
  destruct (check_department_access user_id (d_id d) w1) as [[] w2]; simpl in *;
    (split; [congruence|]); [|discriminate].
  intros department_id [= <-]. split; [by exists d|].
  rewrite <- Hdb. by apply Hgrant.
Qed.

Lemma filter_unique {A B} `{EqDecision B} (key : A → B) (l : list A) x :
  NoDup (key <$> l) → x ∈ l → filter (λ y, key y = key x) l = [x].
Proof.
  induction l as [|a l IH]; intros Hnd Hx; [by apply elem_of_nil in Hx|].
  rewrite fmap_cons in Hnd. apply NoDup_cons in Hnd as [Hfresh Hnd].
  rewrite filter_cons. apply elem_of_cons in Hx as [->|Hx].
  - rewrite decide_True by reflexivity. f_equal.
    apply filter_nil_forall. intros y Hy Heq. apply Hfresh.
    rewrite <- Heq. by apply list_elem_of_fmap_2.
  - rewrite decide_False; [by apply IH|].
    intros Heq. apply Hfresh. rewrite Heq. by apply list_elem_of_fmap_2.
Qed.

Lemma department_page_shown_with_grant_aux (user_id : Z) (d : department) (p : permission)
    (w : world) :
  plan w = [] →
  NoDup (d_name <$> departments (db w)) → d ∈ departments (db w) →
  p ∈ permissions (db w) → p_user_id p = user_id → p_department_id p = d_id d →
  p_can_view p = true →
  (department_page (Some user_id) (d_name d) w).1 = DepartmentShown (d_id d).
Proof.
  intros Hplan Hnd Hd Hp Hu Hdep Hview.
  unfold department_page, get_department_by_name, check_department_access, bind, ret.
  rewrite execute_query_query, Hplan. simpl.
  rewrite (filter_unique d_name _ d Hnd Hd). simpl.
  assert (p ∈ filter (λ q, p_user_id q = user_id ∧ p_department_id q = d_id d
                            ∧ p_can_view q = true) (permissions (db w))) as Hin
    by (by apply list_elem_of_filter).
  destruct (filter _ (permissions (db w))) as [|q qs]; [by apply elem_of_nil in Hin|].
  reflexivity.
Qed.

(** X2. With department names unique and no faults, a user who has a grant
    row with [can_view] for a department is shown its page, whatever the
    row says of [can_edit]. *)
Theorem department_page_shown_with_grant (user_id : Z) (d : department) (p : permission)
    (w : world) :
  plan w = [] →
  NoDup (d_name <$> departments (db w)) → d ∈ departments (db w) →
  p ∈ permissions (db w) → p_user_id p = user_id → p_department_id p = d_id d →
  p_can_view p = true →
  (department_page (Some user_id) (d_name d) w).1 = DepartmentShown (d_id d).
Proof. apply department_page_shown_with_grant_aux. Qed.

(** X3. A user is listed among the team members of a department exactly
    when the view check for that user and department says yes (no
    faults). *)
Theorem team_members_are_those_with_access (u : user) (department_id : Z) (w : world) :
  plan w = [] → u ∈ users (db w) →
  (∃ m, m ∈ (get_department_team_members department_id w).1 ∧ tm_id m = u_id u)
  ↔ (check_department_access (u_id u) department_id w).1 = true.
Proof.
  intros Hplan Hu.
  unfold get_department_team_members, check_department_access, bind, ret.
  rewrite !execute_query_query, Hplan. simpl. split.
  - intros (m & Hm & Hid). rewrite merge_sort_Permutation in Hm.
    apply list_elem_of_bind in Hm as (u' & Hm & Hu').
    apply list_elem_of_bind in Hm as (udp & Hm & Hudp).
    apply list_elem_of_singleton in Hm. subst m. simpl in Hid.
    apply list_elem_of_filter in Hudp as [(Hj & Hd & Hv) Hudp].
    assert (udp ∈ filter (λ q, p_user_id q = u_id u ∧ p_department_id q = department_id
                               ∧ p_can_view q = true) (permissions (db w))) as Hin.
    { apply list_elem_of_filter. repeat split; auto. congruence. }
    destruct (filter _ (permissions (db w))) as [|q qs];
      [by apply elem_of_nil in Hin | reflexivity].
  - intros Haccess.
    destruct (filter (λ q, p_user_id q = u_id u ∧ p_department_id q = department_id
                           ∧ p_can_view q = true) (permissions (db w)))
      as [|q qs] eqn:Hf; [discriminate|].
    assert (q ∈ filter (λ q, p_user_id q = u_id u ∧ p_department_id q = department_id
                             ∧ p_can_view q = true) (permissions (db w))) as Hq
      by (rewrite Hf; by left).
    apply list_elem_of_filter in Hq as [(Hqu & Hqd & Hqv) Hq].
    exists (TeamMember (u_id u) (u_username u) (u_full_name u) (u_email u)
              (u_department u) (p_can_view q) (p_can_edit q)).
    split; [|reflexivity]. rewrite merge_sort_Permutation.
    apply list_elem_of_bind. exists u. split; [|exact Hu].
    apply list_elem_of_bind. exists q. split; [by left|].
    apply list_elem_of_filter. auto.
Qed.

(** ** Navigation *)

Lemma starts_with_app (old t : text) : starts_with old (old ++ t) = true.
Proof.
  induction old as [|a old IH]; [by destruct t|].
  simpl. by rewrite bool_decide_eq_true_2.
Qed.

Lemma starts_with_inv (old s : text) :
  starts_with old s = true → ∃ t, s = old ++ t.
Proof.
  revert s. induction old as [|a old IH]; intros s Hs; [by exists s|].
  destruct s as [|b s]; [discriminate|]. simpl in Hs.
  apply andb_true_iff in Hs as [Hab Hs]. apply bool_decide_eq_true in Hab as ->.
  destruct (IH s Hs) as [t ->]. by exists t.
Qed.

(** Only the first [length old] characters of the text matter. *)
Lemma starts_with_app_long (old s t : text) :
  (length old ≤ length s)%nat → starts_with old (s ++ t) = starts_with old s.
Proof.
  revert s. induction old as [|a old IH]; intros s Hlen; [by destruct s|].
  destruct s as [|b s]; simpl in *; [lia|].
  rewrite IH by lia. reflexivity.
Qed.

Lemma contains_app_r (old a b : text) :
  contains old b = true → contains old (a ++ b) = true.
Proof.
  intros Hb. induction a as [|c a IH]; [exact Hb|].
  simpl. rewrite IH. apply orb_true_r.
Qed.

Lemma contains_starts_with (old s : text) :
  starts_with old s = true → contains old s = true.
Proof. intros Hs. destruct s; simpl; by rewrite Hs. Qed.

Lemma not_contains_suffix (old a1 a2 : text) :
  contains old (a1 ++ a2) = false → starts_with old a2 = false.
Proof.
  intros Hno. destruct (starts_with old a2) eqn:Hs; [|reflexivity].
  rewrite contains_app_r in Hno; [discriminate|]. by apply contains_starts_with.
Qed.

Lemma replace_from_skip (old a t : text) :
  replace_from old (length a) (a ++ t) = replace_from old 0 t.
Proof. induction a as [|c a IH]; [reflexivity | exact IH]. Qed.

(** An occurrence at the head is dropped and the scan resumes behind it. *)
Lemma replace_from_occurrence (old t : text) :
  old ≠ [] → replace_from old 0 (old ++ t) = replace_from old 0 t.
Proof.
  intros Hne. destruct old as [|a old]; [done|].
  change (replace_from (a :: old) 0 ((a :: old) ++ t))
    with (if starts_with (a :: old) ((a :: old) ++ t)
          then replace_from (a :: old) (length (a :: old) - 1) (old ++ t)
          else a :: replace_from (a :: old) 0 (old ++ t)).
  rewrite starts_with_app. simpl. rewrite Nat.sub_0_r.
  apply replace_from_skip.
Qed.

(** A stretch in which no occurrence begins is kept as it is. *)
Lemma replace_from_kept (old a t : text) :
  (∀ a1 a2, a = a1 ++ a2 → a2 ≠ [] → starts_with old (a2 ++ t) = false) →
  replace_from old 0 (a ++ t) = a ++ replace_from old 0 t.
Proof.
  induction a as [|c a IH]; intros Hno; [reflexivity|].
  change (replace_from old 0 ((c :: a) ++ t))
    with (if starts_with old ((c :: a) ++ t)
          then replace_from old (length old - 1) (a ++ t)
          else c :: replace_from old 0 (a ++ t)).
  rewrite (Hno [] (c :: a)) by done.
  simpl. f_equal. apply IH. intros a1 a2 -> Hne.
  by apply (Hno (c :: a1) a2).
Qed.

Lemma replace_from_length (old : text) (k : nat) (s : text) :
  (length (replace_from old k s) ≤ length s)%nat.
Proof.
  revert k. induction s as [|c s IH]; intros k; [simpl; lia|].
  destruct k as [|k].
  - change (replace_from old 0 (c :: s))
      with (if starts_with old (c :: s)
            then replace_from old (length old - 1) s
            else c :: replace_from old 0 s).
    destruct (starts_with old (c :: s)); simpl.
    + specialize (IH (length old - 1)%nat). lia.
    + specialize (IH 0%nat). lia.
  - simpl. specialize (IH k). lia.
Qed.

(** The leftmost occurrence. *)
Lemma contains_leftmost (old s : text) :
  contains old s = true →
  ∃ a b, s = a ++ old ++ b
         ∧ ∀ a1 a2, a = a1 ++ a2 → a2 ≠ [] → starts_with old (a2 ++ old ++ b) = false.
Proof.
  induction s as [|c s IH]; intros Hs.
  - simpl in Hs. rewrite orb_false_r in Hs.
    apply starts_with_inv in Hs as [t Ht]. exists [], t.
    split; [exact Ht|]. intros [|??] a2 Ha; [|discriminate]. simpl in Ha.
    by subst a2.
  - destruct (starts_with old (c :: s)) eqn:Hhead.
    + apply starts_with_inv in Hhead as [t Ht]. exists [], t.
      split; [exact Ht|]. intros [|??] a2 Ha; [|discriminate]. simpl in Ha.
      by subst a2.
    + simpl in Hs. simpl in Hhead. rewrite Hhead in Hs. simpl in Hs.
      destruct (IH Hs) as (a & b & -> & Hno). exists (c :: a), b.
      split; [reflexivity|]. intros [|c' a1] a2 Ha Hne; simpl in Ha.
      * subst a2. exact Hhead.
      * injection Ha as -> ->. by apply (Hno a1 a2).
Qed.

(** Where [old] occurs, the result is shorter by at least its length. *)
Lemma replace_from_shorter (old s : text) :
  contains old s = true →
  (length (replace_from old 0 s) + length old ≤ length s)%nat.
Proof.
  intros Hs. destruct (contains_leftmost old s Hs) as (a & b & -> & Hno).
  destruct (decide (old = [])) as [->|Hne].
  { simpl. pose proof (replace_from_length [] 0 (a ++ b)). lia. }
  rewrite (replace_from_kept old a (old ++ b) Hno).
  rewrite replace_from_occurrence by exact Hne.
  pose proof (replace_from_length old 0 b). rewrite !length_app. lia.
Qed.

(** [" Department"] has its blank only in front, so no occurrence can
    begin inside a name and end in the suffix put behind it. *)
Lemma department_suffix_no_overlap (a2 t : text) :
  a2 ≠ [] → starts_with department_suffix (a2 ++ department_suffix ++ t) = true →
  starts_with department_suffix a2 = true.
Proof.
  intros Hne Hs. apply starts_with_inv in Hs as [t' Ht'].
  apply app_eq_inv in Ht' as [(k & -> & _)|(k & Hk & Hrest)];
    [apply starts_with_app|].
  destruct k as [|c' k].
  { rewrite app_nil_r in Hk. subst a2. reflexivity. }
  exfalso. destruct a2 as [|c a2]; [done|].
  assert (department_suffix = 32%N :: codes "Department") as Hsuffix by reflexivity.
  rewrite Hsuffix in Hk, Hrest.
  assert (c' = 32%N) as -> by (simpl in Hrest; congruence).
  assert (codes "Department" = a2 ++ 32%N :: k) as Hword
    by (simpl in Hk; congruence).
  assert (32%N ∈ codes "Department") as Hin
    by (rewrite Hword; apply elem_of_app; right; by left).
  revert Hin. compute_done.
Qed.

Lemma department_entry_replaced (name : text) :
  contains department_suffix name = false →
  replace_with_empty department_suffix (name ++ department_suffix) = name.
Proof.
  intros Hno. unfold replace_with_empty.
  rewrite replace_from_kept.
  - rewrite <- (app_nil_r department_suffix) at 2.
    rewrite replace_from_occurrence by done. simpl. apply app_nil_r.
  - intros a1 a2 -> Hne.
    destruct (starts_with department_suffix (a2 ++ department_suffix)) eqn:Hs;
      [|reflexivity].
    rewrite <- (app_nil_r department_suffix) in Hs at 2.
    apply department_suffix_no_overlap in Hs; [|exact Hne].
    by rewrite (not_contains_suffix _ _ _ Hno) in Hs.
Qed.

Lemma department_entry_shortened (name : text) :
  contains department_suffix name = true →
  (length (replace_with_empty department_suffix (name ++ department_suffix))
   < length name)%nat.
Proof.
  intros Hyes. unfold replace_with_empty.
  destruct (contains_leftmost _ _ Hyes) as (a & b & -> & Hno).
  rewrite <- !app_assoc.
  rewrite replace_from_kept.
  - rewrite replace_from_occurrence by done.
    pose proof (replace_from_shorter department_suffix (b ++ department_suffix)) as Hb.
    rewrite contains_app_r in Hb by reflexivity. specialize (Hb eq_refl).
    rewrite !length_app in *. simpl in *. lia.
  - intros a1 a2 Ha Hne.
    rewrite (app_assoc department_suffix b), app_assoc.
    rewrite starts_with_app_long; [by apply (Hno a1 a2)|].
    rewrite !length_app. lia.
Qed.

Lemma menu_entry_not_fixed (name fixed : text) :
  last fixed ≠ Some 116%N → name ++ department_suffix ≠ fixed.
Proof.
  intros Hlast Heq. apply Hlast. rewrite <- Heq, last_app. reflexivity.
Qed.

Lemma main_route_department_entry (name : text) (role : option text) :
  main_route (name ++ department_suffix) role
  = DepartmentPage (replace_with_empty department_suffix (name ++ department_suffix)).
Proof.
  unfold main_route.
  repeat (rewrite decide_False;
            [|first [ by apply menu_entry_not_fixed
                    | intros [Hmenu _]; revert Hmenu; by apply menu_entry_not_fixed ]]).
  by rewrite contains_app_r.
Qed.

(** X4. The menu entry of a department leads to the page of that department
    exactly when its name does not contain [" Department"]; a name that
    does is cut short on the way and another name is looked up. *)
Theorem department_entry_routes_iff (name : text) (role : option text) :
  main_route (name ++ department_suffix) role = DepartmentPage name
  ↔ contains department_suffix name = false.
Proof.
  rewrite main_route_department_entry. split.
  - intros [= Heq]. destruct (contains department_suffix name) eqn:Hc; [|reflexivity].
    apply department_entry_shortened in Hc. rewrite Heq in Hc. lia.
  - intros Hno. by rewrite department_entry_replaced.
Qed.

(** X5. From the menu to the page: with department names unique and no
    faults, every department the sidebar lists for a user, whose name
    does not contain [" Department"], is routed to its own page, and that
    page is shown to the user. *)
Theorem listed_department_opens (user_id : Z) (role : option text)
    (dept : accessible_department) (w : world) :
  plan w = [] →
  NoDup (d_name <$> departments (db w)) →
  dept ∈ (get_user_accessible_departments user_id w).1 →
  contains department_suffix (ad_name dept) = false →
  ad_name dept ++ department_suffix
    ∈ sidebar_menu_items (get_user_accessible_departments user_id w).1 role
  ∧ main_route (ad_name dept ++ department_suffix) role = DepartmentPage (ad_name dept)
  ∧ (department_page (Some user_id) (ad_name dept) w).1 = DepartmentShown (ad_id dept).
Proof.
  intros Hplan Hnd Hdept Hno. split; [|split].
  - unfold sidebar_menu_items. apply elem_of_app. right. apply elem_of_app. left.
    by apply (list_elem_of_fmap_2 (λ d, ad_name d ++ department_suffix)).
  - by rewrite main_route_department_entry, department_entry_replaced.
  - unfold get_user_accessible_departments, bind, ret in Hdept.
    rewrite execute_query_query, Hplan in Hdept. simpl in Hdept.
    rewrite merge_sort_Permutation in Hdept.
    apply list_elem_of_bind in Hdept as (d & Hdept & Hd).
    apply list_elem_of_bind in Hdept as (udp & Hdept & Hudp).
    apply list_elem_of_singleton in Hdept. subst dept. simpl.
    apply list_elem_of_filter in Hudp as [(Hid & Hu & Hv) Hudp].
    by apply (department_page_shown_with_grant_aux user_id d udp).
Qed.

(** ** The notifications page *)

Lemma insert_newest_first_perm x l : insert_newest_first x l ≡ₚ x :: l.
Proof.
  induction l as [|y l IH]; [reflexivity|]. simpl.
  destruct (decide _); [|reflexivity].
  rewrite IH. apply Permutation_swap.
Qed.

Lemma sort_newest_first_perm l : sort_newest_first l ≡ₚ l.
Proof.
  induction l as [|x l IH]; [reflexivity|]. unfold sort_newest_first in *. simpl.
  by rewrite insert_newest_first_perm, IH.
Qed.

Lemma insert_newest_first_sorted x l :
  StronglySorted (λ a b, nr_created_at b ≤ nr_created_at a) l →
  StronglySorted (λ a b, nr_created_at b ≤ nr_created_at a) (insert_newest_first x l).
Proof.
  induction 1 as [|y l Hl IH Hy]; simpl.
  - repeat constructor.
  - destruct (decide (nr_created_at x < nr_created_at y)) as [Hlt|Hge].
    + constructor; [exact IH|].
      rewrite insert_newest_first_perm. constructor; [lia | exact Hy].
    + constructor; [by constructor|].
      constructor; [lia|]. eapply Forall_impl; [exact Hy|]. simpl. intros z Hz. lia.
Qed.

Lemma sort_newest_first_sorted l :
  StronglySorted (λ a b, nr_created_at b ≤ nr_created_at a) (sort_newest_first l).
Proof.
  induction l as [|x l IH]; [constructor|].
  by apply insert_newest_first_sorted.
Qed.

Lemma StronglySorted_filter {A} (R : relation A) (P : A → Prop) `{∀ x, Decision (P x)}
    (l : list A) :
  StronglySorted R l → StronglySorted R (filter P l).
Proof.
  induction 1 as [|x l Hl IH Hx]; [constructor|].
  rewrite filter_cons. destruct (decide (P x)); [|exact IH].
  constructor; [exact IH|].
  apply Forall_forall. intros y Hy. apply list_elem_of_filter in Hy as [_ Hy].
  rewrite Forall_forall in Hx. by apply Hx.
Qed.

Lemma day_groups_partition (today : Z) (l : list notification_row) :
  filter (λ n, date (nr_created_at n) = today) l
  ++ filter (λ n, date (nr_created_at n) = today - 1) l
  ++ filter (λ n, date (nr_created_at n) < today - 1) l
  ≡ₚ filter (λ n, date (nr_created_at n) ≤ today) l.
Proof.
  induction l as [|x l IH]; [reflexivity|].
  rewrite !filter_cons.
  destruct (decide (date (nr_created_at x) = today)) as [H1|H1];
    destruct (decide (date (nr_created_at x) = today - 1)) as [H2|H2];
    destruct (decide (date (nr_created_at x) < today - 1)) as [H3|H3];
    destruct (decide (date (nr_created_at x) ≤ today)) as [H4|H4];
    try lia; try exact IH.
  - simpl. by constructor.
  - rewrite <- app_comm_cons, <- Permutation_middle. by constructor.
  - rewrite app_assoc, <- Permutation_middle, <- app_assoc. by constructor.
Qed.

(** X6. The rows the page shows are those of the inbox dated today or
    before, each in exactly one of the three groups and newest first
    within its group; a row dated after today is in no group. *)
Theorem notifications_page_groups_by_day (user_id now : Z) (pressed : bool)
    (w : world) (groups : notification_groups) :
  (notifications_page user_id now pressed w).1 = NotificationsShown groups →
  today_notifs groups ++ yesterday_notifs groups ++ older_notifs groups
    ≡ₚ filter (λ n, date (nr_created_at n) ≤ date now)
         (get_user_notifications user_id w).1
  ∧ Forall (λ n, date (nr_created_at n) = date now) (today_notifs groups)
  ∧ Forall (λ n, date (nr_created_at n) = date now - 1) (yesterday_notifs groups)
  ∧ Forall (λ n, date (nr_created_at n) < date now - 1) (older_notifs groups)
  ∧ StronglySorted (λ a b, nr_created_at b ≤ nr_created_at a) (today_notifs groups)
  ∧ StronglySorted (λ a b, nr_created_at b ≤ nr_created_at a) (yesterday_notifs groups)
  ∧ StronglySorted (λ a b, nr_created_at b ≤ nr_created_at a) (older_notifs groups).
Proof.
  unfold notifications_page, bind, ret.
  destruct (get_user_notifications user_id w) as [rows w1]. simpl.
  destruct (mark_all_offered rows && pressed).
  { destruct (mark_all_notifications_read user_id w1). discriminate. }
  destruct rows as [|r rows]; [discriminate|].
  intros [= <-]. cbn [today_notifs yesterday_notifs older_notifs].
  split; [|repeat split].
  - rewrite day_groups_partition. f_equiv.
    apply (sort_newest_first_perm (r :: rows)).
  - apply Forall_forall. intros n Hn. by apply list_elem_of_filter in Hn as [? _].
  - apply Forall_forall. intros n Hn. by apply list_elem_of_filter in Hn as [? _].
  - apply Forall_forall. intros n Hn. by apply list_elem_of_filter in Hn as [? _].
  - apply StronglySorted_filter, (sort_newest_first_sorted (r :: rows)).
  - apply StronglySorted_filter, (sort_newest_first_sorted (r :: rows)).
  - apply StronglySorted_filter, (sort_newest_first_sorted (r :: rows)).
Qed.

(** X7. Unread notifications behind the cap cannot be cleared from the
    page: when the 50 newest notifications of a user are all read and an
    older one is not, the page offers no way to mark all as read and
    writes nothing, whatever is pressed, and the unread count stays
    above 0. *)
Theorem unread_behind_the_cap_stays (user_id now : Z) (pressed : bool)
    (n : notification) (w : world) :
  plan w = [] →
  Forall (λ m, n_is_read m = true) (inbox user_id (db w)) →
  n ∈ notifications (db w) → n_user_id n = user_id → n_is_read n = false →
  (notifications_page user_id now pressed w).1 ≠ AllMarkedRead
  ∧ db (notifications_page user_id now pressed w).2 = db w
  ∧ 0 < (get_unread_notification_count user_id
           (notifications_page user_id now pressed w).2).1.
Proof.
  intros Hplan Hread Hn Hu Hunread.
  assert (mark_all_offered (notification_row_of <$> inbox user_id (db w)) = false)
    as Hoffer.
  { apply bool_decide_eq_false. rewrite Exists_exists.
    intros (r & Hr & Hr'). apply list_elem_of_fmap in Hr as (m & -> & Hm).
    rewrite Forall_forall in Hread. simpl in Hr'. rewrite (Hread m Hm) in Hr'.
    discriminate. }
  assert (0 < Z.of_nat (length (filter (λ m, n_user_id m = user_id ∧ n_is_read m = false)
                                  (notifications (db w))))) as Hcount.
  { assert (n ∈ filter (λ m, n_user_id m = user_id ∧ n_is_read m = false)
                  (notifications (db w))) as Hin by (by apply list_elem_of_filter).
    destruct (filter _ (notifications (db w))); [by apply elem_of_nil in Hin|].
    simpl. lia. }
  unfold notifications_page, get_user_notifications, get_unread_notification_count,
    bind, ret.
  rewrite execute_query_query, Hplan. simpl. rewrite Hoffer. simpl.
  destruct (notification_row_of <$> inbox user_id (db w)); simpl;
    (split; [discriminate|]); (split; [reflexivity|]); exact Hcount.
Qed.

(** ** Creating a task *)

(** X9. The page never confirms a task.  The id is asked of a new connection
    and comes back 0, so the branch that links the tags, notifies the
    assignee and reports success is not entered, whatever the loop over
    the tags would do: no notification is written, and when the insert
    went through, the task is in the store while the page says that it
    failed to get the id. *)
Theorem create_task_never_confirmed (link_tags : Z → M unit) (reporter_id : Z)
    (title description priority : text) (deadline : Z) (assignee : option Z)
    (status department : Z) (w : world) :
  create_task_page_submit link_tags reporter_id title description priority deadline
    assignee status department w
  = create_task_page_submit (λ _, ret ()) reporter_id title description priority
      deadline assignee status department w
  ∧ (create_task_page_submit link_tags reporter_id title description priority deadline
       assignee status department w).1 ≠ TaskCreated
  ∧ notifications
      (db (create_task_page_submit link_tags reporter_id title description priority
             deadline assignee status department w).2)
    = notifications (db w)
  ∧ (plan w = [] → nonempty title = true →
     (create_task_page_submit link_tags reporter_id title description priority deadline
        assignee status department w).1 = FailedToGetTaskId
     ∧ ∃ t, tasks (db (create_task_page_submit link_tags reporter_id title description
                         priority deadline assignee status department w).2)
            = tasks (db w) ++ [t]
            ∧ t_title t = title ∧ t_reporter_id t = reporter_id
            ∧ t_status_id t = status ∧ t_department_id t = department).
Proof.
  unfold create_task_page_submit.
  destruct (nonempty title); simpl; [|repeat split; try done].
  unfold bind, ret, execute_query. simpl.
  destruct (plan w) as [|[] [|[] rest]]; simpl; repeat split; try done;
    intros; try discriminate; eexists; repeat split.
Qed.

(** ** Passwords set by other forms *)




(** ** Bulk upload *)


Lemma bulk_upload_cons random_password r rest report w :
  team_members_page_bulk_upload ((random_password, r) :: rest) report w
  = let '(outcome, w1) :=
      team_members_page_bulk_row random_password (csv_username r) (csv_full_name r)
        (csv_email r) (csv_department r) w in
    team_members_page_bulk_upload rest
      (BulkReport (br_results report ++ [(csv_username r, outcome)])
         (match outcome with
          | BulkUserCreated _ => S (br_success_count report)
          | _ => br_success_count report
          end)
         (match outcome with
          | BulkUserCreated _ => br_error_count report
          | _ => S (br_error_count report)
          end)) w1.
Proof. reflexivity. Qed.

(** X15. The two counts of the report add up to the number of rows, and
    there is one result per row, whatever fails. *)
Theorem bulk_upload_counts (data : list (text * csv_row)) (w : world) :
  (br_success_count (team_members_page_bulk_upload data (BulkReport [] 0 0) w).1
   + br_error_count (team_members_page_bulk_upload data (BulkReport [] 0 0) w).1
   = length data)%nat
  ∧ (λ res, res.1) <$> br_results (team_members_page_bulk_upload data (BulkReport [] 0 0) w).1
    = (λ d, csv_username d.2) <$> data.
Proof.
  assert (∀ report w,
    (br_success_count (team_members_page_bulk_upload data report w).1
     + br_error_count (team_members_page_bulk_upload data report w).1
     = br_success_count report + br_error_count report + length data)%nat
    ∧ (λ res, res.1) <$> br_results (team_members_page_bulk_upload data report w).1
      = ((λ res, res.1) <$> br_results report) ++ ((λ d, csv_username d.2) <$> data))
    as Hgen.
  { induction data as [|[pw r] rest IH]; intros report w0.
    - simpl. rewrite app_nil_r. split; [lia | reflexivity].
    - rewrite bulk_upload_cons.
      destruct (team_members_page_bulk_row _ _ _ _ _ w0) as [outcome w1].
      destruct (IH (BulkReport (br_results report ++ [(csv_username r, outcome)])
                      (match outcome with
                       | BulkUserCreated _ => S (br_success_count report)
                       | _ => br_success_count report
                       end)
                      (match outcome with
                       | BulkUserCreated _ => br_error_count report
                       | _ => S (br_error_count report)
                       end)) w1) as [Hc Hr].
      split.
      + rewrite Hc. simpl. destruct outcome; lia.
      + rewrite Hr. simpl. rewrite fmap_app, <- app_assoc. reflexivity. }
  destruct (Hgen (BulkReport [] 0 0) w) as [Hc Hr]. split; [exact Hc | exact Hr].
Qed.



(** ** The team view and the comments of a task *)

Lemma filter_all {A} (P : A → Prop) `{∀ x, Decision (P x)} (l : list A) :
  (∀ x, x ∈ l → P x) → filter P l = l.
Proof.
  induction l as [|x l IH]; intros Hall; [reflexivity|].
  rewrite filter_cons, decide_True by (apply Hall; by left).
  f_equal. apply IH. intros y Hy. apply Hall. by right.
Qed.

Lemma user_info_row_keys u :
  user_info_row u !! "role" = None
  ∧ user_info_row u !! "id" = Some (VInt (ui_id u))
  ∧ user_info_row u !! "username" = Some (VText (ui_username u)).
Proof. repeat split. Qed.

(** X17. The team view hides nobody: its rows have no key [role], so the
    filter meant to keep admin users from other users keeps every row,
    and a user who is no admin sees what an admin sees, every user of the
    store included. *)
Theorem team_view_hides_nobody (role : option text) (w : world) :
  team_members_page_view role w = team_members_page_view (Some (codes "admin")) w
  ∧ (plan w = [] → ∀ u, u ∈ users (db w) →
     ∃ rows member,
       (team_members_page_view role w).1 = Some rows ∧ member ∈ rows
       ∧ member !! "id" = Some (VInt (u_id u))
       ∧ member !! "username" = Some (VText (u_username u))).
Proof.
  assert (∀ l : list user_info,
            filter (λ member, get member "role" ≠ VText (codes "admin"))
              (user_info_row <$> l) = user_info_row <$> l) as Hkeep.
  { intros l. apply filter_all. intros member Hm.
    apply list_elem_of_fmap in Hm as (x & -> & _).
    unfold get. by destruct (user_info_row_keys x) as (-> & _). }
  assert (team_members_page_view role w
          = team_members_page_view (Some (codes "admin")) w) as Hsame.
  { unfold team_members_page_view, bind, ret.
    destruct (get_all_users w) as [[[|first rest]|] w1]; try reflexivity.
    rewrite (decide_False (P := Some (codes "admin") ≠ Some (codes "admin")))
      by (intros Hne; by apply Hne).
    destruct (decide (role ≠ Some (codes "admin"))); [|reflexivity].
    by rewrite Hkeep. }
  split; [exact Hsame|].
  intros Hplan u Hu. rewrite Hsame.
  unfold team_members_page_view, get_all_users, bind, ret.
  rewrite execute_query_query, Hplan. simpl.
  assert (user_info_of u
            ∈ merge_sort (λ a b, collation_le (ui_full_name a) (ui_full_name b))
                (user_info_of <$> users (db w))) as Hin
    by (rewrite merge_sort_Permutation; by apply list_elem_of_fmap_2).
  destruct (merge_sort _ (user_info_of <$> users (db w))) as [|first rest];
    [by apply elem_of_nil in Hin|].
  eexists _, (user_info_row (user_info_of u)). split; [reflexivity|].
  split; [by apply (list_elem_of_fmap_2 user_info_row (first :: rest))|].
  split; reflexivity.
Qed.

(** X18. A comment that was added is listed for its task, with its text and
    the full name of its author, and the lists of the other tasks are as
    before (no faults, the author is a user of the store and the task a
    task of the store).  For what is no task of the store the server
    refuses the comment, and every list is as before. *)
Theorem added_comment_is_listed (task_id : Z) (u : user) (comment : text) (w : world) :
  plan w = [] → u ∈ users (db w) →
  (task_id ∈ t_id <$> tasks (db w) →
   (∃ r, r ∈ (get_task_comments task_id (add_comment task_id (u_id u) comment w).2).1
         ∧ cr_id r = next_id (c_id <$> comments (db w))
         ∧ cr_comment r = comment ∧ cr_full_name r = u_full_name u)
   ∧ ∀ other, other ≠ task_id →
       (get_task_comments other (add_comment task_id (u_id u) comment w).2).1
       = (get_task_comments other w).1)
  ∧ (task_id ∉ t_id <$> tasks (db w) →
     db (add_comment task_id (u_id u) comment w).2 = db w
     ∧ ∀ any, (get_task_comments any (add_comment task_id (u_id u) comment w).2).1
              = (get_task_comments any w).1).
Proof.
  intros Hplan Hu. unfold add_comment, get_task_comments, bind, ret.
  rewrite (execute_query_no_fault _ w Hplan). simpl.
  split; intros Htask.
  - rewrite decide_True by (split; [exact Htask | by apply list_elem_of_fmap_2]).
    simpl. split.
    + exists (CommentRow (next_id (c_id <$> comments (db w))) comment (clock (db w))
                (u_full_name u)).
      split; [|auto].
      apply list_elem_of_bind.
      exists (Comment (next_id (c_id <$> comments (db w))) task_id (u_id u) comment
                (clock (db w))).
      split.
      * apply list_elem_of_bind. exists u. split; [by left|].
        by apply list_elem_of_filter.
      * rewrite merge_sort_Permutation, filter_app, elem_of_app. right.
        rewrite filter_cons, decide_True by reflexivity. by left.
    + intros other Hother. rewrite execute_query_query, Hplan. simpl.
      rewrite filter_app, filter_cons, decide_False by (simpl; congruence).
      by rewrite filter_nil, app_nil_r.
  - rewrite decide_False by (intros [Hin _]; by apply Htask).
    simpl. split; [reflexivity|].
    intros any. rewrite execute_query_query, Hplan. reflexivity.
Qed.

(** ** The move in display order *)

Lemma StronglySorted_lookup_lt {A} (R : relation A) (l : list A) i j x y :
  StronglySorted R l → l !! i = Some x → l !! j = Some y → (i < j)%nat → R x y.
Proof.
  intros Hl. revert i j. induction Hl as [|a l Hl IH Ha]; intros i j Hi Hj Hlt.
  - by rewrite lookup_nil in Hi.
  - destruct j as [|j]; [lia|]. simpl in Hj. destruct i as [|i]; simpl in Hi.
    + injection Hi as ->. rewrite Forall_forall in Ha.
      apply Ha. by eapply list_elem_of_lookup_2.
    + apply (IH i j); auto. lia.
Qed.

#[local] Instance display_order_le_total : Total display_order_le.
Proof. intros a b. unfold display_order_le. lia. Qed.

#[local] Instance display_order_le_transitive : Transitive display_order_le.
Proof. intros a b c. unfold display_order_le. lia. Qed.

Lemma move_moved_inv status_id (task : row) w next_status :
  (show_department_tasks_by_status_move status_id task w).1 = Moved next_status →
  ∃ i st,
    list_find (λ s, sr_id s = status_id)
      ((λ st, StatusRow (s_id st) (s_name st))
         <$> merge_sort display_order_le (statuses (db w))) = Some (i, st)
    ∧ ((λ st, StatusRow (s_id st) (s_name st))
         <$> merge_sort display_order_le (statuses (db w))) !! (i + 1)%nat
      = Some next_status.
Proof.
  unfold show_department_tasks_by_status_move, get_all_statuses_with_id, bind, ret.
  rewrite execute_query_query.
  destruct (plan w) as [|[] rest]; simpl; try discriminate;
    destruct (list_find _ _) as [[i st]|]; try discriminate;
    (destruct (decide (i < _ - 1)%nat); [|discriminate]);
    destruct (_ !! (i + 1)%nat) as [next|] eqn:Hnext; try discriminate;
    unfold execute_query; simpl;
    try (destruct rest as [|[] rest]; simpl; try discriminate);
    destruct (truthy (get task "assignee_id")); simpl;
    try (destruct (add_notification _ _ _ _)); simpl;
    intros [= <-]; eauto.
Qed.

(** X20. A move goes to the next status in display order: the new status is
    a status of the catalog no earlier in display order than the old one,
    and no status of the catalog lies strictly between the two. *)
Theorem move_goes_to_next_in_display_order (status_id : Z) (task : row) (w : world)
    (next_status : status_row) :
  (show_department_tasks_by_status_move status_id task w).1 = Moved next_status →
  ∃ cur nxt,
    cur ∈ statuses (db w) ∧ nxt ∈ statuses (db w)
    ∧ s_id cur = status_id
    ∧ s_id nxt = sr_id next_status ∧ s_name nxt = sr_name next_status
    ∧ s_display_order cur ≤ s_display_order nxt
    ∧ ∀ st, st ∈ statuses (db w) →
            ¬ (s_display_order cur < s_display_order st < s_display_order nxt).
Proof.
  intros Hmoved. apply move_moved_inv in Hmoved as (i & st & Hfind & Hnext).
  apply list_find_Some in Hfind as (Hi & Hid & _).
  apply list_lookup_fmap_Some in Hi as (cur & -> & Hi).
  apply list_lookup_fmap_Some in Hnext as (nxt & -> & Hnext).
  simpl in Hid.
  pose proof (StronglySorted_merge_sort display_order_le (statuses (db w))) as Hsorted.
  assert (∀ x, x ∈ merge_sort display_order_le (statuses (db w))
               ↔ x ∈ statuses (db w)) as Hmem
    by (intros x; by rewrite merge_sort_Permutation).
  exists cur, nxt. repeat split; auto.
  - apply Hmem. by eapply list_elem_of_lookup_2.
  - apply Hmem. by eapply list_elem_of_lookup_2.
  - apply (StronglySorted_lookup_lt _ _ i (i + 1) cur nxt Hsorted Hi Hnext). lia.
  - intros st Hst [Hlo Hhi]. apply Hmem in Hst.
    apply list_elem_of_lookup_1 in Hst as [j Hj].
    destruct (decide (j < i)%nat) as [Hlt|Hge].
    + pose proof (StronglySorted_lookup_lt _ _ j i st cur Hsorted Hj Hi Hlt) as Hle.
      unfold display_order_le in Hle. lia.
    + destruct (decide (j = i)) as [->|Hne].
      * rewrite Hi in Hj. injection Hj as ->. lia.
      * destruct (decide (j = i + 1)%nat) as [->|Hne'].
        -- rewrite Hnext in Hj. injection Hj as ->. lia.
        -- assert (i + 1 < j)%nat as Hlt by lia.
           pose proof (StronglySorted_lookup_lt _ _ (i + 1) j nxt st Hsorted Hnext Hj Hlt)
             as Hle.
           unfold display_order_le in Hle. lia.
Qed.

(** X21. A task of the by-status listing is moved without a word to anyone:
    for every row of the listing, the move leaves the notifications as
    they are, whoever the task is assigned to. *)
Theorem listed_task_move_never_notifies (department_id status_id : Z)
    (w0 w : world) (rows : list row) (task : row) :
  (execute_query (department_tasks_by_status department_id status_id) w0).1 = Some rows →
  task ∈ rows →
  notifications (db (show_department_tasks_by_status_move status_id task w).2)
  = notifications (db w).
Proof.
  intros Hrows Htask. apply move_keeps_notifications.
  unfold execute_query in Hrows.
  destruct (plan w0) as [|[] ?]; simpl in Hrows; try discriminate;
    injection Hrows as <-;
    by destruct (listing_row_keys department_id status_id (db w0) create_connection
                   _ _ _ task eq_refl Htask) as [Hkey _].
Qed.

(** X22. No move from the last status: for the status that comes strictly
    last in display order (ids unique), no button is offered, whatever
    fails, and the store stays as it is. *)
Theorem move_not_offered_on_last_status (status_id : Z) (task : row) (w : world)
    (top : status) :
  NoDup (s_id <$> statuses (db w)) →
  top ∈ statuses (db w) → s_id top = status_id →
  (∀ st, st ∈ statuses (db w) → st ≠ top → s_display_order st < s_display_order top) →
  (show_department_tasks_by_status_move status_id task w).1 = NoNextStatus
  ∧ db (show_department_tasks_by_status_move status_id task w).2 = db w.
Proof.
  intros Hnd Htop Hid Hmax.
  apply (move_from_last_status status_id task w (StatusRow (s_id top) (s_name top))).
  set (l := merge_sort display_order_le (statuses (db w))).
  pose proof (StronglySorted_merge_sort display_order_le (statuses (db w))) as Hsorted.
  fold l in Hsorted.
  assert (l ≡ₚ statuses (db w)) as Hperm by apply merge_sort_Permutation.
  assert (NoDup (s_id <$> l)) as Hndl by (by rewrite Hperm).
  assert (top ∈ l) as Hin by (by rewrite Hperm).
  apply list_elem_of_lookup_1 in Hin as [j Hj].
  assert (j = length l - 1)%nat as Hlast.
  { destruct (decide (j + 1 < length l)%nat) as [Hlt|Hge].
    - apply lookup_lt_is_Some_2 in Hlt as [y Hy]. exfalso.
      assert (display_order_le top y) as Hle
        by (apply (StronglySorted_lookup_lt _ l j (j + 1) top y Hsorted Hj Hy); lia).
      assert (y ≠ top) as Hne.
      { intros ->. apply NoDup_fmap_1 in Hndl.
        pose proof (NoDup_lookup l j (j + 1) top Hndl Hj Hy). lia. }
      assert (y ∈ statuses (db w)) as Hyin
        by (rewrite <- Hperm; by eapply list_elem_of_lookup_2).
      specialize (Hmax y Hyin Hne). unfold display_order_le in Hle. lia.
    - apply lookup_lt_Some in Hj. lia. }
  rewrite length_fmap, <- Hlast.
  apply list_find_Some. split; [|split].
  - rewrite list_lookup_fmap, Hj. reflexivity.
  - exact Hid.
  - intros k y Hk Hlt Hyid.
    apply list_lookup_fmap_Some in Hk as (y0 & -> & Hk). simpl in Hyid.
    assert ((s_id <$> l) !! k = Some status_id) as Hk'
      by (rewrite list_lookup_fmap, Hk; simpl; congruence).
    assert ((s_id <$> l) !! j = Some status_id) as Hj'
      by (rewrite list_lookup_fmap, Hj; simpl; congruence).
    pose proof (NoDup_lookup _ k j status_id Hndl Hk' Hj'). lia.
Qed.

(** ** Changing the password *)

(** The change-password form never gets past the check of the current
    password when the stored hash fits its column of 64 characters, as
    every hash does that the other forms write: the value it compares
    with is a salt, [$] and a digest of 64 characters.  It reports no
    change and writes nothing, whatever the passwords and the faults. *)
Lemma fitting_hash_is_never_changed user_id salt current_password new_password
    confirm_password w :
  hexdigest_64 →
  (∀ u h, u ∈ users (db w) → u_password_hash u = Some h → (length h ≤ 64)%nat) →
  (user_profile_page_change_password user_id salt current_password new_password
     confirm_password w).1 ≠ PasswordChanged
  ∧ db (user_profile_page_change_password user_id salt current_password new_password
          confirm_password w).2 = db w.
Proof.
  intros H64 Hfit. unfold user_profile_page_change_password.
  destruct (negb (nonempty current_password) || negb (nonempty new_password)
            || negb (nonempty confirm_password)); [by split|].
  destruct (decide (new_password ≠ confirm_password)); [by split|].
  destruct (decide (length new_password < 8)%nat); [by split|].
  unfold bind, ret. rewrite execute_query_query.
  destruct (u_password_hash <$> filter (λ u, u_id u = user_id) (users (db w)))
    as [|[h|] others] eqn:Hrows;
    [destruct (plan w) as [|[] ?]; by split | | destruct (plan w) as [|[] ?]; by split].
  apply fmap_filter_head in Hrows as (u & Hu & _ & Hh).
  assert (salted_hash (before_dollar h) current_password ≠ h) as Hne.
  { intros Heq. apply (f_equal length) in Heq. unfold salted_hash in Heq.
    rewrite !length_app, H64 in Heq. simpl in Heq.
    specialize (Hfit u h Hu (eq_sym Hh)). lia. }
  destruct (plan w) as [|[] ?]; simpl; try (by split);
    (destruct (nonempty h); [|by split]);
    rewrite decide_True by exact Hne; by split.
Qed.

End Properties.

(** * Examples *)

Lemma checksum_hexdigest_64 : hexdigest_64.
Proof. intros t. unfold sha256_hexdigest. simpl. reflexivity. Qed.

(** alice's profile names Engineering, she has no grant for it, and she
    has no access to it. *)
Lemma no_grant_no_access_witness :
  u_department alice = d_name engineering
  ∧ (check_department_access 1 1 example_world).1 = false
  ∧ (∀ d, d ∈ (get_user_accessible_departments 1 example_world).1 → ad_id d ≠ 1)
  ∧ current_flags (get_user_department_permissions 1 example_world).1 1 = (false, false).
Proof.
  split; [reflexivity|].
  apply (no_grant_no_access 1 1 example_world).
  intros p Hp [Hu Hd]. simpl in Hp.
  apply list_elem_of_singleton in Hp. subst p. simpl in Hu. lia.
Defined.

(** Two upserts for bob of which the second fails: "1 of 2", the grant
    for Engineering is there, the one for Marketing is as it was. *)
Lemma permission_batch_not_atomic_witness :
  (admin_panel_page_update_permissions 2 example_batch example_batch_world).1
  = SomeNotUpdated 1 2
  ∧ grants_for 2 1 example_store = []
  ∧ (∃ id, grants_for 2 1
             (db (admin_panel_page_update_permissions 2 example_batch
                    example_batch_world).2)
           = [Permission id 2 1 true true])
  ∧ grants_for 2 2
      (db (admin_panel_page_update_permissions 2 example_batch example_batch_world).2)
    = [Permission 1 2 2 true false].
Proof.
  destruct (permission_batch_not_atomic 2 example_batch [true; false]
              example_batch_world) as [Hreport Heach].
  - compute_done.
  - reflexivity.
  - reflexivity.
  - split; [exact Hreport|]. split; [reflexivity|]. split.
    + apply (Heach 0%nat (PermissionEntry 1 (codes "Engineering") true true));
        reflexivity.
    + apply (Heach 1%nat (PermissionEntry 2 (codes "Marketing") true true));
        reflexivity.
Defined.

(** C4. An entry of the batch for a pair that has a grant row should
    overwrite the flags of that row.  bob has a grant for Marketing with
    [can_view]; the form is submitted to take it away.  When the question
    for the existing row is answered, the row is overwritten.  When the
    connection for that question fails, the form takes the missing answer
    for "no row": it inserts a second row for the pair beside the first,
    counts the entry as updated and reports success, and bob can still
    view Marketing. *)
Theorem failed_check_duplicates_grant :
  grants_for 2 2 example_store = [Permission 1 2 2 true false]
  ∧ (admin_panel_page_update_permissions 2 revocation_batch example_world).1
    = PermissionsUpdated
  ∧ grants_for 2 2
      (db (admin_panel_page_update_permissions 2 revocation_batch example_world).2)
    = [Permission 1 2 2 false false]
  ∧ (check_department_access 2 2
       (World (db (admin_panel_page_update_permissions 2 revocation_batch
                     example_world).2) [] [])).1 = false
  ∧ (admin_panel_page_update_permissions 2 revocation_batch failed_check_world).1
    = PermissionsUpdated
  ∧ grants_for 2 2
      (db (admin_panel_page_update_permissions 2 revocation_batch failed_check_world).2)
    = [Permission 1 2 2 true false; Permission 3 2 2 false false]
  ∧ (check_department_access 2 2
       (World (db (admin_panel_page_update_permissions 2 revocation_batch
                     failed_check_world).2) [] [])).1 = true.
Proof. vm_compute. repeat split. Qed.


(** bob marks all as read and has nothing unread; marking his read
    notification again leaves it as it is. *)
Lemma read_flags_only_set_witness :
  (get_unread_notification_count 2 inbox_world).1 = 1
  ∧ (get_unread_notification_count 2 (mark_all_notifications_read 2 inbox_world).2).1 = 0
  ∧ notifications (db (mark_notification_read 2 inbox_world).2) !! 1%nat
    = Some (Notification 2 2 (codes "second") None true 6)
  ∧ db (mark_notification_read 1 (mark_notification_read 1 inbox_world).2).2
    = db (mark_notification_read 1 inbox_world).2.
Proof.
  destruct (read_flags_only_set 2 2 inbox_world) as (Hall & Hone & _).
  destruct (read_flags_only_set 2 1 inbox_world) as (_ & _ & Htwice).
  split; [reflexivity|]. split; [|split].
  - apply Hall. reflexivity.
  - apply Hone; reflexivity.
  - apply Htwice. reflexivity.
Defined.


(** [re.findall(r'@(\w+)', text)] on a few texts. *)
Example findall_examples :
  findall (codes "hi @alice, @bob_2 x@@ghost @ @alice!")
  = [codes "alice"; codes "bob_2"; codes "ghost"; codes "alice"]
  ∧ findall (codes "mail a@b.com") = [codes "b"]
  ∧ findall (codes "@alice@bob") = [codes "alice"; codes "bob"]
  ∧ findall (codes "@@ @ @-x") = [].
Proof. vm_compute. repeat split. Qed.

(** C2. A comment that contains the token of a known user should give
    one mention linked to it and one notification for that user.  bob
    mentions the known user alice once: the name is found and resolved to
    alice's id and the comment is stored, but [add_comment] returns the
    id 0 (falsy), so the form skips the loop over the mentioned users: no
    mention, no notification.  A mention of the unknown name ghost
    resolves to nothing and is no error, as it should. *)
Theorem single_mention_is_dropped :
  (extract_mentions (codes "please look @alice") example_world).1 = Some [1]
  ∧ (add_comment 1 2 (codes "please look @alice") example_world).1 = Some 0
  ∧ (show_department_tasks_add_comment bob_session 1 (codes "Fix login")
       (codes "please look @alice") example_world).1 = CommentAdded
  ∧ c_comment <$>
      comments (db (show_department_tasks_add_comment bob_session 1 (codes "Fix login")
                      (codes "please look @alice") example_world).2)
    = [codes "please look @alice"]
  ∧ mentions (db (show_department_tasks_add_comment bob_session 1 (codes "Fix login")
                    (codes "please look @alice") example_world).2) = []
  ∧ notifications (db (show_department_tasks_add_comment bob_session 1 (codes "Fix login")
                         (codes "please look @alice") example_world).2) = []
  ∧ (extract_mentions (codes "ask @ghost") example_world).1 = Some []
  ∧ (show_department_tasks_add_comment bob_session 1 (codes "Fix login")
       (codes "ask @ghost") example_world).1 = CommentAdded.
Proof. vm_compute. repeat split. Qed.

(** bob writes to alice and to a ghost: one entry, alice's. *)
Lemma mentions_resolved_per_occurrence_witness :
  ∃ ids,
    (extract_mentions (codes "@alice and @ghost, hello") example_world).1 = Some ids
    ∧ (∀ u, u ∈ users example_store →
            length (filter (λ i, i = u_id u) ids)
            = length (filter (λ name, name = u_username u)
                        (findall (codes "@alice and @ghost, hello"))))
    ∧ (∀ i, i ∈ ids →
            ∃ u, u ∈ users example_store ∧ u_id u = i
                 ∧ u_username u ∈ findall (codes "@alice and @ghost, hello"))
    ∧ mentions (db (process_mentions bob_session 1 (codes "Fix login") 7 ids
                      example_world).2)
      = mentions example_store ++ ((λ u, Mention 7 u false) <$> ids)
    ∧ n_user_id <$>
        notifications (db (process_mentions bob_session 1 (codes "Fix login") 7 ids
                             example_world).2)
      = (n_user_id <$> notifications example_store) ++ ids.
Proof.
  apply (mentions_resolved_per_occurrence (codes "@alice and @ghost, hello")
           bob_session 1 (codes "Fix login") 7 example_world example_world).
  - reflexivity.
  - reflexivity.
  - compute_done.
  - compute_done.
Defined.

(** C10. A comment that mentions alice twice should give two mentions
    and two notifications for her.  [extract_mentions] does return her id
    twice, and the loop over the ids would write one mention and one
    notification per entry; but the form never enters the loop, and the
    stored comment has no mention and no notification at all. *)
Theorem repeated_mention_creates_nothing :
  (extract_mentions (codes "@alice ping, @alice again") example_world).1 = Some [1; 1]
  ∧ mentions (db (process_mentions bob_session 1 (codes "Fix login") 7 [1; 1]
                    example_world).2)
    = [Mention 7 1 false; Mention 7 1 false]
  ∧ n_user_id <$>
      notifications (db (process_mentions bob_session 1 (codes "Fix login") 7 [1; 1]
                           example_world).2)
    = [1; 1]
  ∧ mentions (db (show_department_tasks_add_comment bob_session 1 (codes "Fix login")
                    (codes "@alice ping, @alice again") example_world).2) = []
  ∧ notifications (db (show_department_tasks_add_comment bob_session 1 (codes "Fix login")
                         (codes "@alice ping, @alice again") example_world).2) = [].
Proof. vm_compute. repeat split. Qed.

(** C3. Moving a task with an assignee to the next status should notify
    the assignee.  The task "Fix login" is assigned to bob and in
    "To Do"; the move takes it to "In Progress", one step forward, and
    writes no notification: the listing row has no key [assignee_id], so
    [task.get('assignee_id')] is [None]. *)
Theorem moved_task_assignee_not_notified :
  (execute_query (department_tasks_by_status 1 1) example_world).1 = Some [fix_login_row]
  ∧ t_assignee_id fix_login = Some 2
  ∧ (show_department_tasks_by_status_move 1 fix_login_row example_world).1
    = Moved (StatusRow 2 (codes "In Progress"))
  ∧ tasks (db (show_department_tasks_by_status_move 1 fix_login_row example_world).2)
    = [set_status 2 fix_login]
  ∧ notifications (db (show_department_tasks_by_status_move 1 fix_login_row
                         example_world).2) = [].
Proof. vm_compute. repeat split. Qed.

(** C6. A registration under a name in use should be caught by a
    question to the store before anything is written.  The login page and
    the bulk upload ask first and send nothing else; the add-team-member
    form sends the [INSERT] for the name bob straight away, and it is the
    store that refuses it. *)
Theorem add_member_form_does_not_ask_first :
  codes "bob" ∈ u_username <$> users example_store
  ∧ team_members_page_add_member (codes "Xk2p9QwLm3") (codes "bob") (codes "Robert B")
      (codes "rb@edubull.com") (codes "Sales") example_world
    = (MemberNotAdded, World example_store [] [Insert "users"])
  ∧ team_members_page_bulk_row (codes "Xk2p9QwLm3") (codes "bob") (codes "Robert B")
      (codes "rb@edubull.com") (codes "Sales") example_world
    = (BulkUsernameExists, World example_store [] [Select "users"])
  ∧ login_page_register (codes "bob") (codes "Robert B") (codes "rb@edubull.com")
      (codes "Sales") (codes "hunter22") (codes "hunter22") example_world
    = (UsernameAlreadyExists, World example_store [] [Select "users"]).
Proof.
  split; [compute_done|]. vm_compute. repeat split.
Qed.

(** ** Department pages, navigation *)

(** bob has a grant for Marketing; its page is shown to him. *)
Lemma department_page_shown_only_with_grant_witness :
  (department_page (Some 2) (codes "Marketing") example_world).1 = DepartmentShown 2
  ∧ (∃ d, d ∈ departments example_store ∧ d_id d = 2 ∧ d_name d = codes "Marketing")
  ∧ (∃ p, p ∈ permissions example_store ∧ p_user_id p = 2
          ∧ p_department_id p = 2 ∧ p_can_view p = true).
Proof.
  split; [vm_compute; reflexivity|].
  destruct (department_page_shown_only_with_grant 2 (codes "Marketing") example_world)
    as [_ Hshown].
  apply (Hshown 2). vm_compute. reflexivity.
Defined.

Lemma department_page_shown_with_grant_witness :
  (department_page (Some 2) (d_name marketing) example_world).1
  = DepartmentShown (d_id marketing).
Proof.
  apply (department_page_shown_with_grant 2 marketing marketing_grant example_world).
  - reflexivity.
  - compute_done.
  - right. left.
  - left.
  - reflexivity.
  - reflexivity.
  - reflexivity.
Defined.

(** bob is a team member of Marketing. *)
Lemma team_members_are_those_with_access_witness :
  (check_department_access 2 2 example_world).1 = true
  ∧ ∃ m, m ∈ (get_department_team_members 2 example_world).1 ∧ tm_id m = u_id bob.
Proof.
  split; [vm_compute; reflexivity|].
  destruct (team_members_are_those_with_access bob 2 example_world) as [_ Hlisted].
  - reflexivity.
  - right. left.
  - apply Hlisted. vm_compute. reflexivity.
Defined.

(** The sidebar lists "Marketing Department" for bob, and the entry
    opens the page of Marketing. *)
Lemma listed_department_opens_witness :
  codes "Marketing Department"
    ∈ sidebar_menu_items (get_user_accessible_departments 2 example_world).1
        (Some (codes "user"))
  ∧ main_route (codes "Marketing Department") (Some (codes "user"))
    = DepartmentPage (codes "Marketing")
  ∧ (department_page (Some 2) (codes "Marketing") example_world).1 = DepartmentShown 2.
Proof.
  apply (listed_department_opens 2 (Some (codes "user")) marketing_entry example_world).
  - reflexivity.
  - compute_done.
  - vm_compute. left.
  - vm_compute. reflexivity.
Defined.

(** ** The notifications page *)

(** bob looks at his two notifications without pressing the button. *)
Lemma notifications_page_groups_by_day_witness :
  ∃ groups,
    (notifications_page 2 50 false inbox_world).1 = NotificationsShown groups
    ∧ today_notifs groups ++ yesterday_notifs groups ++ older_notifs groups
        ≡ₚ filter (λ n, date (nr_created_at n) ≤ date 50)
             (get_user_notifications 2 inbox_world).1
    ∧ Forall (λ n, date (nr_created_at n) = date 50) (today_notifs groups).
Proof.
  eexists. split; [vm_compute; reflexivity|].
  destruct (notifications_page_groups_by_day 2 50 false inbox_world _ eq_refl)
    as (Hall & Htoday & _).
  split; [exact Hall | exact Htoday].
Defined.

(** bob's oldest notification is unread and behind the cap. *)
Lemma unread_behind_the_cap_stays_witness :
  (notifications_page 2 100 true capped_world).1 ≠ AllMarkedRead
  ∧ db (notifications_page 2 100 true capped_world).2 = db capped_world
  ∧ 0 < (get_unread_notification_count 2
           (notifications_page 2 100 true capped_world).2).1.
Proof.
  apply (unread_behind_the_cap_stays 2 100 true forgotten capped_world).
  - reflexivity.
  - compute_done.
  - left.
  - reflexivity.
  - reflexivity.
Defined.

(** ** Creating a task *)

(** alice creates a task for bob: it is stored, and the page says that it
    failed to get the id. *)
Lemma create_task_never_confirmed_witness :
  (create_task_page_submit (λ _, ret ()) 1 (codes "Write docs") (codes "README")
     (codes "Low") 200 (Some 2) 1 1 example_world).1 = FailedToGetTaskId.
Proof.
  destruct (create_task_never_confirmed (λ _, ret ()) 1 (codes "Write docs")
              (codes "README") (codes "Low") 200 (Some 2) 1 1 example_world)
    as (_ & _ & _ & Hstored).
  destruct Hstored as [Hresult _]; [reflexivity | reflexivity | exact Hresult].
Defined.

(** ** Passwords *)



(** bob registered through the login page, so his row holds a plain
    digest: the form never changes his password, not even with the right
    current password. *)
Lemma plain_hash_cannot_change_witness :
  (user_profile_page_change_password 2 (codes "n3wsalt") (codes "secret123")
     (codes "newpassword1") (codes "newpassword1") example_world).1 ≠ PasswordChanged.
Proof.
  apply (plain_hash_cannot_change 2 (codes "n3wsalt") (codes "secret123")
           (codes "newpassword1") (codes "newpassword1") example_world
           (codes "secret123") []).
  - exact checksum_hexdigest_64.
  - vm_compute. reflexivity.
Defined.

(** ** Names in use *)

Lemma login_page_register_duplicate_witness :
  login_page_register (codes "bob") (codes "Robert B") (codes "rb@edubull.com")
    (codes "Sales") (codes "hunter22") (codes "hunter22") example_world
  = (UsernameAlreadyExists,
     World (db example_world) (tail (plan example_world))
       (log example_world ++ [Select "users"])).
Proof.
  apply (login_page_register_duplicate (codes "bob") (codes "Robert B")
           (codes "rb@edubull.com") (codes "Sales") (codes "hunter22") example_world).
  - discriminate.
  - reflexivity.
  - reflexivity.
  - reflexivity.
  - reflexivity.
  - compute_done.
Defined.

Lemma admin_panel_page_add_user_duplicate_witness :
  admin_panel_page_add_user (codes "bob") (codes "Robert B") (codes "rb@edubull.com")
    (codes "Sales") (codes "manager") (codes "hunter22") (codes "hunter22") example_world
  = (UsernameAlreadyExists,
     World (db example_world) (tail (plan example_world))
       (log example_world ++ [Select "users"])).
Proof.
  apply (admin_panel_page_add_user_duplicate (codes "bob") (codes "Robert B")
           (codes "rb@edubull.com") (codes "Sales") (codes "manager") (codes "hunter22")
           example_world).
  - discriminate.
  - reflexivity.
  - reflexivity.
  - reflexivity.
  - reflexivity.
  - compute_done.
Defined.

(** ** Bulk upload *)


(** ** The team view, comments *)

(** bob, who is no admin, finds alice in the team view. *)
Lemma team_view_hides_nobody_witness :
  ∃ rows member,
    (team_members_page_view (Some (codes "user")) example_world).1 = Some rows
    ∧ member ∈ rows
    ∧ member !! "id" = Some (VInt (u_id alice))
    ∧ member !! "username" = Some (VText (u_username alice)).
Proof.
  destruct (team_view_hides_nobody (Some (codes "user")) example_world) as [_ Hall].
  apply (Hall eq_refl alice). left.
Defined.

(** bob comments on the task "Fix login"; a comment on task 99, which
    is no task, is refused. *)
Lemma added_comment_is_listed_witness :
  (∃ r, r ∈ (get_task_comments 1 (add_comment 1 (u_id bob) (codes "on it")
                                    example_world).2).1
        ∧ cr_id r = next_id (c_id <$> comments (db example_world))
        ∧ cr_comment r = codes "on it" ∧ cr_full_name r = u_full_name bob)
  ∧ db (add_comment 99 (u_id bob) (codes "on it") example_world).2 = db example_world.
Proof.
  split.
  - destruct (added_comment_is_listed 1 bob (codes "on it") example_world)
      as [Hlisted _].
    + reflexivity.
    + right. left.
    + apply Hlisted. compute_done.
  - destruct (added_comment_is_listed 99 bob (codes "on it") example_world)
      as [_ Hrefused].
    + reflexivity.
    + right. left.
    + apply Hrefused. compute_done.
Defined.

(** ** Moves *)

(** "Fix login" goes from "To Do" to "In Progress". *)
Lemma move_goes_to_next_in_display_order_witness :
  (show_department_tasks_by_status_move 1 fix_login_row example_world).1
  = Moved (StatusRow 2 (codes "In Progress"))
  ∧ ∃ cur nxt,
      cur ∈ statuses (db example_world) ∧ nxt ∈ statuses (db example_world)
      ∧ s_id cur = 1
      ∧ s_id nxt = 2 ∧ s_name nxt = codes "In Progress"
      ∧ s_display_order cur ≤ s_display_order nxt
      ∧ ∀ st, st ∈ statuses (db example_world) →
              ¬ (s_display_order cur < s_display_order st < s_display_order nxt).
Proof.
  split; [vm_compute; reflexivity|].
  apply (move_goes_to_next_in_display_order 1 fix_login_row example_world
           (StatusRow 2 (codes "In Progress"))).
  vm_compute. reflexivity.
Defined.

Lemma listed_task_move_never_notifies_witness :
  notifications (db (show_department_tasks_by_status_move 1 fix_login_row
                       example_world).2)
  = notifications (db example_world).
Proof.
  apply (listed_task_move_never_notifies 1 1 example_world example_world
           [fix_login_row] fix_login_row).
  - vm_compute. reflexivity.
  - left.
Defined.

(** A task in "Done" has no move. *)
Lemma move_not_offered_on_last_status_witness :
  (show_department_tasks_by_status_move 4 fix_login_row example_world).1 = NoNextStatus
  ∧ db (show_department_tasks_by_status_move 4 fix_login_row example_world).2
    = db example_world.
Proof.
  apply (move_not_offered_on_last_status 4 fix_login_row example_world
           (Status 4 (codes "Done") 4)).
  - compute_done.
  - right. right. right. left.
  - reflexivity.
  - intros st Hst Hne. simpl in Hst. unfold default_statuses in Hst.
    repeat (apply elem_of_cons in Hst as [->|Hst]); simpl; try lia.
    + by destruct Hne.
    + by apply elem_of_nil in Hst.
Defined.

(** ** The inbox, mentions *)


Lemma inbox_length_witness :
  length (get_user_notifications 2 capped_world).1 = 50%nat
  ∧ length (filter (λ n, n_user_id n = 2) (notifications (db capped_world))) = 51%nat.
Proof.
  split; [|vm_compute; reflexivity].
  rewrite (inbox_length 2 capped_world eq_refl). vm_compute. reflexivity.
Defined.

(** "ping @bob, please" mentions bob. *)
Lemma findall_token_witness :
  findall (codes "ping " ++ at_sign :: codes "bob" ++ codes ", please")
  = codes "bob" :: findall (codes ", please").
Proof.
  apply (findall_token (codes "ping ") (codes "bob") (codes ", please")).
  - intros c Hc. revert c Hc. apply Forall_forall. compute_done.
  - discriminate.
  - compute_done.
  - reflexivity.
Defined.
